(** * Attendance tracker: ratio, status transition, check-in, reports, admin

    A shallow embedding of [app.py], and of the URL the poster script
    [poster.py] prints.  The relational store is three lists of rows; the SQLAlchemy unit of work is a pair of stores (the session's
    view and the committed one) threaded through a small state-and-error
    monad; the mail transport, the clock and the process environment are
    inputs gathered in [Env].

    Numbers.  Python's [int / int] true division is modelled by the exact
    rational ([Q]); the only uses made of the quotient are a comparison
    with 0.5 and a rounding of the percentage.  The comparison agrees with
    binary64 for every row count a store can hold; the rounding is the one
    of the exact quotient.  Strings are sequences of 8-bit characters; case
    folding and trimming act on the ASCII range, and the store and Python
    fold case alike. *)

From Stdlib Require Import ZArith QArith Qround List String Ascii Bool Lia.
From Stdlib Require DecimalString.
From Stdlib Require Import Permutation Sorted Lqa.
Import ListNotations.

Local Open Scope string_scope.
Local Open Scope Z_scope.

(** ** Persistence schema *)

Module Student.
Record t : Type := mk
  { id : Z;
    name : string;
    email : option string;
    active : bool;
    last_notified_at : option Z }.

Definition set_email (e : option string) (s : t) : t :=
  mk (id s) (name s) e (active s) (last_notified_at s).
Definition set_name (n : string) (s : t) : t :=
  mk (id s) n (email s) (active s) (last_notified_at s).
Definition set_active (b : bool) (s : t) : t :=
  mk (id s) (name s) (email s) b (last_notified_at s).
Definition set_last_notified_at (ts : option Z) (s : t) : t :=
  mk (id s) (name s) (email s) (active s) ts.
End Student.

Module Session.
Record t : Type := mk
  { id : Z;
    class_date : Z }.
End Session.

Module Attendance.
Record t : Type := mk
  { id : Z;
    student_id : Z;
    session_id : Z;
    present : bool;
    timestamp : Z }.
End Attendance.

Record DB : Type := mkDB
  { students : list Student.t;
    sessions : list Session.t;
    attendances : list Attendance.t }.

Definition empty_db : DB := mkDB [] [] [].

(** ** Process environment, clock and mail transport *)

(** What [int(os.getenv('SMTP_PORT','587'))] meets: the variable unset, a
    string that reads as an integer, or one that does not. *)
Inductive PortSetting : Type :=
| PortUnset
| PortNumber (n : Z)
| PortMalformed.

(** What the SMTP conversation does once it is attempted. *)
Inductive SmtpOutcome : Type :=
| Delivered
| ConnectFails
| LoginFails.

Record Env : Type := mkEnv
  { SMTP_HOST : option string;
    SMTP_PORT : PortSetting;
    SMTP_USERNAME : option string;
    SMTP_PASSWORD : option string;
    FROM_EMAIL : option string;
    ADMIN_CODE : option string;
    smtp_server : SmtpOutcome;
    enforce_foreign_keys : bool;
    today : Z;
    utcnow : Z }.

Definition getenv_default (v : option string) (dflt : string) : string :=
  match v with Some s => s | None => dflt end.

(** ** Python helpers *)

Definition truthy (s : string) : bool :=
  match s with EmptyString => false | _ => true end.

Definition truthy_opt (o : option string) : bool :=
  match o with Some s => truthy s | None => false end.

(** [x or None] on a string. *)
Definition or_None (s : string) : option string :=
  if truthy s then Some s else None.

(** [x or ''] on an optional form field. *)
Definition or_empty (o : option string) : string :=
  match o with Some s => s | None => "" end.

Definition is_space (c : ascii) : bool :=
  let n := N_of_ascii c in
  ((9 <=? n) && (n <=? 13) || (28 <=? n) && (n <=? 32))%N.

Fixpoint lstrip (s : string) : string :=
  match s with
  | String c r => if is_space c then lstrip r else s
  | EmptyString => EmptyString
  end.

Fixpoint rstrip (s : string) : string :=
  match s with
  | String c r =>
      match rstrip r with
      | EmptyString => if is_space c then EmptyString else String c EmptyString
      | r' => String c r'
      end
  | EmptyString => EmptyString
  end.

Definition strip (s : string) : string := rstrip (lstrip s).

Definition lower_char (c : ascii) : ascii :=
  let n := N_of_ascii c in
  if ((65 <=? n) && (n <=? 90))%N then ascii_of_N (n + 32) else c.

Fixpoint lower (s : string) : string :=
  match s with
  | String c r => String (lower_char c) (lower r)
  | EmptyString => EmptyString
  end.

Definition opt_eqb (a b : option string) : bool :=
  match a, b with
  | Some x, Some y => String.eqb x y
  | None, None => true
  | _, _ => false
  end.

(** [round]: to the nearest integer, a tie going to the even neighbour. *)
Definition py_round (q : Q) : Z :=
  let f := Qfloor q in
  let twice := (2 * (q - inject_Z f))%Q in
  match Qcompare twice 1 with
  | Lt => f
  | Gt => f + 1
  | Eq => if Z.even f then f else f + 1
  end.

Definition Qltb (x y : Q) : bool :=
  (Qnum x * Zpos (Qden y) <? Qnum y * Zpos (Qden x))%Z.

(** ** Unit of work: a state-and-error monad *)

Inductive Exn : Type :=
| NotFound
| IntegrityError
| ValueError
| SMTPException.

Inductive Outcome (A : Type) : Type :=
| Ret (a : A)
| Raise (e : Exn).
Arguments Ret {A} a.
Arguments Raise {A} e.

Module EmailMessage.
Record t : Type := mk
  { Subject : string;
    From : string;
    To : string;
    content : string }.
End EmailMessage.

(** [cur] is the store as the SQLAlchemy session sees it, [saved] the last
    committed store, [violated] records that a change staged since the last
    commit breaks a constraint of the schema (the flush at commit time then
    fails), [is_admin] is the flag kept in the signed cookie. *)
Record St : Type := mkSt
  { cur : DB;
    saved : DB;
    violated : bool;
    outbox : list EmailMessage.t;
    flashes : list (string * string);
    is_admin : bool }.

Definition M (A : Type) : Type := St -> Outcome A * St.

Definition ret {A} (a : A) : M A := fun st => (Ret a, st).
Definition raise {A} (e : Exn) : M A := fun st => (Raise e, st).
Definition bind {A B} (m : M A) (k : A -> M B) : M B :=
  fun st =>
    match m st with
    | (Ret a, st') => k a st'
    | (Raise e, st') => (Raise e, st')
    end.

Declare Scope unit_of_work_scope.
Delimit Scope unit_of_work_scope with uow.
Notation "x <- m ;; k" := (bind m (fun x => k))
  (at level 61, m at next level, right associativity) : unit_of_work_scope.
Notation "m ;; k" := (bind m (fun _ => k))
  (at level 61, right associativity) : unit_of_work_scope.
Local Open Scope unit_of_work_scope.

(** [try: m except e: h] *)
Definition try_except {A} (m : M A) (e : Exn) (h : M A) : M A :=
  fun st =>
    match m st with
    | (Raise e', st') =>
        match e, e' with
        | IntegrityError, IntegrityError => h st'
        | NotFound, NotFound => h st'
        | ValueError, ValueError => h st'
        | SMTPException, SMTPException => h st'
        | _, _ => (Raise e', st')
        end
    | r => r
    end.

Definition query : M DB := fun st => (Ret (cur st), st).

Definition stage (d : DB) (bad : bool) : M unit :=
  fun st =>
    (Ret tt,
     mkSt d (saved st) (violated st || bad) (outbox st) (flashes st)
          (is_admin st)).

Definition commit : M unit :=
  fun st =>
    if violated st then (Raise IntegrityError, st)
    else (Ret tt,
          mkSt (cur st) (cur st) false (outbox st) (flashes st) (is_admin st)).

Definition rollback : M unit :=
  fun st =>
    (Ret tt,
     mkSt (saved st) (saved st) false (outbox st) (flashes st) (is_admin st)).

Definition flash (message category : string) : M unit :=
  fun st =>
    (Ret tt,
     mkSt (cur st) (saved st) (violated st) (outbox st)
          (flashes st ++ [(message, category)]) (is_admin st)).

Definition smtp_deliver (msg : EmailMessage.t) : M unit :=
  fun st =>
    (Ret tt,
     mkSt (cur st) (saved st) (violated st) (outbox st ++ [msg])
          (flashes st) (is_admin st)).

Definition cookie_get_is_admin : M bool := fun st => (Ret (is_admin st), st).

Definition cookie_set_is_admin (b : bool) : M unit :=
  fun st =>
    (Ret tt,
     mkSt (cur st) (saved st) (violated st) (outbox st) (flashes st) b).

(** ** Store operations and the constraints of the schema *)

(** The primary key the store hands out: one past the largest in use. *)
Definition next_id (ids : list Z) : Z := 1 + fold_right Z.max 0 ids.

Definition name_taken (n : string) (l : list Student.t) : bool :=
  existsb (fun s => String.eqb (Student.name s) n) l.

(** A NULL email never collides: the unique index skips NULLs. *)
Definition email_taken (e : option string) (l : list Student.t) : bool :=
  match e with
  | None => false
  | Some x => existsb (fun s => opt_eqb (Student.email s) (Some x)) l
  end.

Definition others (sid : Z) (l : list Student.t) : list Student.t :=
  filter (fun s => negb (Student.id s =? sid)) l.

Definition update_student (sid : Z) (f : Student.t -> Student.t)
    (l : list Student.t) : list Student.t :=
  map (fun s => if Student.id s =? sid then f s else s) l.

Definition has_session (k : Z) (d : DB) : bool :=
  existsb (fun s => Session.id s =? k) (sessions d).

Definition has_student (k : Z) (d : DB) : bool :=
  existsb (fun s => Student.id s =? k) (students d).

Definition attendance_for (sid k : Z) (a : Attendance.t) : bool :=
  (Attendance.student_id a =? sid) && (Attendance.session_id a =? k).

(** Deleting the students picked by [gone] leaves an attendance row
    without its student. *)
Definition orphaned (gone : Z -> bool) (d : DB) : bool :=
  existsb (fun a => gone (Attendance.student_id a)) (attendances d).

(** [db.session.add(Student(name=.., email=..))]: [active] takes its column
    default. *)
Definition add_student (n : string) (e : option string) : M Student.t :=
  d <- query ;;
  let s := Student.mk (next_id (map Student.id (students d))) n e true None in
  stage (mkDB (students d ++ [s]) (sessions d) (attendances d))
        (name_taken n (students d) || email_taken e (students d)) ;;
  ret s.

(** An attribute assignment on a loaded [Student]; the UPDATE it causes is
    checked against the other rows. *)
Definition modify_student (s : Student.t) (f : Student.t -> Student.t)
  : M Student.t :=
  d <- query ;;
  let s' := f s in
  let rest := others (Student.id s) (students d) in
  stage (mkDB (update_student (Student.id s) f (students d)) (sessions d)
              (attendances d))
        (negb (String.eqb (Student.name s') (Student.name s))
           && name_taken (Student.name s') rest
         || negb (opt_eqb (Student.email s') (Student.email s))
           && email_taken (Student.email s') rest) ;;
  ret s'.

Definition add_session (when : Z) : M Session.t :=
  d <- query ;;
  let s := Session.mk (next_id (map Session.id (sessions d))) when in
  stage (mkDB (students d) (sessions d ++ [s]) (attendances d))
        (existsb (fun x => Session.class_date x =? when) (sessions d)) ;;
  ret s.

(** [db.session.add(Attendance(student_id=.., session_id=.., present=True))].
    [session_id] is whatever the form gave, possibly nothing: the column is
    NOT NULL.  The foreign keys are checked only by a store that enforces
    them. *)
Definition add_attendance (env : Env) (sid : Z) (session_id : option Z)
  : M unit :=
  d <- query ;;
  match session_id with
  | None => stage d true
  | Some k =>
      let a := Attendance.mk (next_id (map Attendance.id (attendances d)))
                             sid k true (utcnow env) in
      stage (mkDB (students d) (sessions d) (attendances d ++ [a]))
            (existsb (attendance_for sid k) (attendances d)
             || enforce_foreign_keys env
                && negb (has_session k d && has_student sid d))
  end.

(** ** Application logic *)

Definition DANGER_THRESHOLD : Q := 1 # 2.

Definition count {A} (l : list A) : Z := Z.of_nat (List.length l).

(** [func.count(Session.id)] *)
Definition session_count (d : DB) : Z := count (sessions d).

(** [func.count(Attendance.id)] filtered on the student and on [present]. *)
Definition present_rows (d : DB) (student_id : Z) : list Attendance.t :=
  filter (fun a => (Attendance.student_id a =? student_id)
                   && Attendance.present a)
         (attendances d).

Definition present_count (d : DB) (student_id : Z) : Z :=
  count (present_rows d student_id).

Definition attendance_ratio (d : DB) (student_id : Z) : Q :=
  let total_sessions := session_count d in
  if total_sessions =? 0 then 1%Q
  else (inject_Z (present_count d student_id) / inject_Z total_sessions)%Q.

Definition get_or_create_today_session (env : Env) : M Session.t :=
  d <- query ;;
  match find (fun s => Session.class_date s =? today env) (sessions d) with
  | Some sess => ret sess
  | None => sess <- add_session (today env) ;; commit ;; ret sess
  end.

Definition send_email (env : Env) (to_email subject body : string) : M bool :=
  let host := SMTP_HOST env in
  match SMTP_PORT env with
  | PortMalformed => raise ValueError
  | port_setting =>
      let port := match port_setting with PortNumber n => n | _ => 587 end in
      let user := SMTP_USERNAME env in
      let pwd := SMTP_PASSWORD env in
      let from_email :=
        match FROM_EMAIL env with Some f => Some f | None => user end in
      if negb (truthy_opt host && negb (port =? 0) && truthy_opt user
               && truthy_opt pwd && truthy_opt from_email && truthy to_email)
      then ret false
      else
        let msg := EmailMessage.mk subject (or_empty from_email) to_email body in
        match smtp_server env with
        | Delivered => smtp_deliver msg ;; ret true
        | ConnectFails | LoginFails => raise SMTPException
        end
  end.

Definition nl : string := String (ascii_of_nat 10) EmptyString.

(** [f"{ratio:.0%}"] *)
Definition percent_string (ratio : Q) : string :=
  DecimalString.NilZero.string_of_int (Z.to_int (py_round (ratio * 100)%Q))
  ++ "%".

Definition alert_subject : string := "Attendance Alert: You are below 50%".

Definition alert_body (name : string) (ratio : Q) : string :=
  "Hi " ++ name ++ "," ++ nl ++ nl
  ++ "Our records show your attendance is " ++ percent_string ratio
  ++ ", which is below the required 50%. Please reach out to your instructor to get back on track."
  ++ nl ++ nl ++ "Thanks.".

(** The [student] argument is the loaded row; the value returned is that
    object as the call leaves it (Python returns nothing and mutates it). *)
Definition check_and_notify_student (env : Env) (student : Student.t)
  : M Student.t :=
  d <- query ;;
  let ratio := attendance_ratio d (Student.id student) in
  let is_inactive := Qltb ratio DANGER_THRESHOLD in
  if is_inactive && Student.active student then
    student <- modify_student student (Student.set_active false) ;;
    commit ;;
    if truthy_opt (Student.email student) then
      send_email env (or_empty (Student.email student)) alert_subject
                 (alert_body (Student.name student) ratio) ;;
      student <- modify_student student
                   (Student.set_last_notified_at (Some (utcnow env))) ;;
      commit ;;
      ret student
    else ret student
  else if negb is_inactive && negb (Student.active student) then
    student <- modify_student student (Student.set_active true) ;;
    commit ;;
    ret student
  else ret student.

(** ** Routes *)

Inductive Cell : Type :=
| Str (s : string)
| Int (n : Z).

Inductive Response : Type :=
| Redirect (endpoint : string) (arg : option Z)
| Template (name : string) (context : list (list Cell))
| Text (body : string) (status : Z)
| Csv (rows : list (list Cell)).

Definition Forbidden : Response := Text "Forbidden" 403.

(** [Session.query.get_or_404] and [Student.query.get_or_404] *)
Definition get_session_or_404 (k : option Z) : M Session.t :=
  d <- query ;;
  match k with
  | None => raise NotFound
  | Some k =>
      match find (fun s => Session.id s =? k) (sessions d) with
      | Some s => ret s
      | None => raise NotFound
      end
  end.

Definition get_student_or_404 (k : Z) : M Student.t :=
  d <- query ;;
  match find (fun s => Student.id s =? k) (students d) with
  | Some s => ret s
  | None => raise NotFound
  end.

(** A missing or zero [session_id] is falsy. *)
Definition falsy_id (k : option Z) : bool :=
  match k with None => true | Some n => n =? 0 end.

Definition checkin (env : Env) (session_id : option Z) : M Response :=
  session_id <-
    (if falsy_id session_id then
       sess <- get_or_create_today_session env ;; ret (Some (Session.id sess))
     else ret session_id) ;;
  sess <- get_session_or_404 session_id ;;
  ret (Template "checkin.html"
         [[Int (Session.id sess); Int (Session.class_date sess)]]).

Record CheckinForm : Type := mkCheckinForm
  { form_session_id : option Z;
    form_name : option string;
    form_email : option string }.

(** [func.lower(Student.name) == name.lower()] *)
Definition same_name (name : string) (s : Student.t) : bool :=
  String.eqb (lower (Student.name s)) (lower name).

(** [Attendance.query.filter_by(student_id=.., session_id=..).first()],
    as a truth value; a missing [session_id] matches no row. *)
Definition existing_attendance (d : DB) (sid : Z) (session_id : option Z)
  : bool :=
  match session_id with
  | Some k => existsb (attendance_for sid k) (attendances d)
  | None => false
  end.

Definition submit_checkin (env : Env) (form : CheckinForm) : M Response :=
  let session_id := form_session_id form in
  let name := strip (or_empty (form_name form)) in
  let email := strip (or_empty (form_email form)) in
  if negb (truthy name) then
    flash "Please enter your name." "error" ;;
    ret (Redirect "checkin" session_id)
  else
    d <- query ;;
    student <-
      match find (same_name name) (students d) with
      | None =>
          student <- add_student name (or_None email) ;;
          commit ;;
          ret student
      | Some student =>
          if truthy email && negb (truthy_opt (Student.email student)) then
            student <- modify_student student (Student.set_email (Some email)) ;;
            commit ;;
            ret student
          else ret student
      end ;;
    d <- query ;;
    let existing := existing_attendance d (Student.id student) session_id in
    (if negb existing then
       add_attendance env (Student.id student) session_id ;; commit
     else ret tt) ;;
    check_and_notify_student env student ;;
    flash "Checked in! Have a great class." "success" ;;
    ret (Redirect "checkin" session_id).

(** ** Reporting *)

Fixpoint insert_by_name (s : Student.t) (l : list Student.t)
  : list Student.t :=
  match l with
  | [] => [s]
  | x :: r =>
      if String.leb (Student.name s) (Student.name x) then s :: l
      else x :: insert_by_name s r
  end.

(** [Student.query.order_by(Student.name).all()] *)
Definition order_by_name (l : list Student.t) : list Student.t :=
  fold_right insert_by_name [] l.

Definition percent (ratio : Q) : Z := py_round (ratio * 100)%Q.

Definition status_label (b : bool) : string :=
  if b then "Active" else "Inactive".

Definition email_or (o : option string) (dflt : string) : string :=
  match o with
  | Some e => if truthy e then e else dflt
  | None => dflt
  end.

Definition dashboard_row (d : DB) (s : Student.t) : list Cell :=
  let total_sessions := session_count d in
  let ratio :=
    if negb (total_sessions =? 0) then attendance_ratio d (Student.id s)
    else 1%Q in
  [Int (Student.id s); Str (Student.name s); Str (email_or (Student.email s) "—");
   Int (percent ratio); Str (status_label (Student.active s))].

Definition dashboard : M Response :=
  d <- query ;;
  ret (Template "dashboard.html"
         (map (dashboard_row d) (order_by_name (students d)))).

(** [total_sessions or 1] *)
Definition or_one (n : Z) : Z := if n =? 0 then 1 else n.

(** The percentage and the status of one line of the all-students
    export. *)
Definition export_pct (d : DB) (s : Student.t) : Z :=
  let total_sessions := session_count d in
  let present_count := present_count d (Student.id s) in
  percent (inject_Z present_count / inject_Z (or_one total_sessions))%Q.

Definition export_status (d : DB) (s : Student.t) : string :=
  status_label (50 <=? export_pct d s).

Definition export_row (d : DB) (s : Student.t) : list Cell :=
  [Str (Student.name s); Str (email_or (Student.email s) "");
   Int (export_pct d s); Str (export_status d s);
   Int (present_count d (Student.id s)); Int (session_count d)].

(** The roster of one session: the join of students and present rows. *)
Definition session_roster (d : DB) (k : Z) : list Student.t :=
  flat_map
    (fun s =>
       map (fun _ => s)
           (filter (fun a => (Attendance.student_id a =? Student.id s)
                             && (Attendance.session_id a =? k)
                             && Attendance.present a)
                   (attendances d)))
    (order_by_name (students d)).

Definition export_csv (session_id : option Z) : M Response :=
  if negb (falsy_id session_id) then
    sess <- get_session_or_404 session_id ;;
    d <- query ;;
    ret (Csv ([Str "session_date"; Str "name"; Str "email"]
              :: map (fun s => [Int (Session.class_date sess);
                                Str (Student.name s);
                                Str (email_or (Student.email s) "")])
                     (session_roster d (Session.id sess))))
  else
    d <- query ;;
    ret (Csv ([Str "name"; Str "email"; Str "attendance_percent";
               Str "status"; Str "present_days"; Str "total_sessions"]
              :: map (export_row d) (order_by_name (students d)))).

(** ** Admin operations *)

Definition admin_code (env : Env) : string :=
  getenv_default (ADMIN_CODE env) "letmein".

(** [class_date] is the form's date once read by [strptime]: [None] stands
    for a missing or malformed field, on which [strptime] raises. *)
Definition create_session (env : Env) (code : option string)
    (class_date : option Z) : M Response :=
  if negb (opt_eqb code (Some (admin_code env))) then ret Forbidden
  else
    match class_date with
    | None => raise ValueError
    | Some when =>
        d <- query ;;
        (if negb (existsb (fun s => Session.class_date s =? when) (sessions d))
         then add_session when ;; commit
         else ret tt) ;;
        ret (Redirect "index" None)
    end.

Definition clear_students (env : Env) (code : option string) : M Response :=
  let code := or_empty code in
  if negb (String.eqb code (admin_code env)) then ret Forbidden
  else
    d <- query ;;
    stage (mkDB (students d) (sessions d) []) false ;;
    d <- query ;;
    stage (mkDB [] (sessions d) (attendances d))
          (enforce_foreign_keys env && orphaned (fun _ => true) d) ;;
    commit ;;
    flash "All students and their attendance have been deleted." "success" ;;
    ret (Redirect "dashboard" None).

Inductive Method : Type := GET | POST.

Definition admin_login (env : Env) (method : Method) (code : option string)
  : M Response :=
  match method with
  | POST =>
      let code := strip (or_empty code) in
      if String.eqb code (admin_code env) then
        cookie_set_is_admin true ;;
        flash "Admin mode enabled." "success" ;;
        ret (Redirect "dashboard" None)
      else
        flash "Invalid admin code." "error" ;;
        ret (Template "admin_login.html" [])
  | GET => ret (Template "admin_login.html" [])
  end.

Definition admin_logout : M Response :=
  cookie_set_is_admin false ;;
  flash "Admin mode disabled." "success" ;;
  ret (Redirect "dashboard" None).

Definition require_admin : M bool := cookie_get_is_admin.

Definition delete_student (env : Env) (student_id : Z) : M Response :=
  ok <- require_admin ;;
  if negb ok then ret Forbidden
  else
    s <- get_student_or_404 student_id ;;
    d <- query ;;
    stage (mkDB (students d) (sessions d)
                (filter (fun a => negb (Attendance.student_id a =? Student.id s))
                        (attendances d)))
          false ;;
    d <- query ;;
    stage (mkDB (others (Student.id s) (students d)) (sessions d)
                (attendances d))
          (enforce_foreign_keys env
           && orphaned (fun k => k =? Student.id s) d) ;;
    commit ;;
    flash ("Deleted " ++ Student.name s ++ ".") "success" ;;
    ret (Redirect "dashboard" None).

Record EditForm : Type := mkEditForm
  { edit_name : option string;
    edit_email : option string }.

Definition edit_student (student_id : Z) (method : Method) (form : EditForm)
  : M Response :=
  ok <- require_admin ;;
  if negb ok then ret Forbidden
  else
    s <- get_student_or_404 student_id ;;
    match method with
    | POST =>
        let new_name := strip (or_empty (edit_name form)) in
        let new_email := or_None (strip (or_empty (edit_email form))) in
        if negb (truthy new_name) then
          flash "Name is required." "error" ;;
          ret (Redirect "edit_student" (Some student_id))
        else
          modify_student s
            (fun x => Student.set_email new_email (Student.set_name new_name x)) ;;
          try_except
            (commit ;;
             flash "Student updated." "success" ;;
             ret (Redirect "dashboard" None))
            IntegrityError
            (rollback ;;
             flash "Name or email already exists. Choose a different one."
                   "error" ;;
             ret (Redirect "edit_student" (Some student_id)))
    | GET =>
        ret (Template "edit_student.html"
               [[Int (Student.id s); Str (Student.name s);
                 Str (email_or (Student.email s) "")]])
    end.

(** ** Daily sweep *)

Fixpoint sweep (env : Env) (l : list Student.t) : M unit :=
  match l with
  | [] => ret tt
  | s :: r => check_and_notify_student env s ;; sweep env r
  end.

Definition daily_recompute (env : Env) : M unit :=
  d <- query ;;
  sweep env (students d).

(** ** Serving a request *)

(** The handler registered last for [Exception] is the one in force; it
    answers every raised error, HTTP errors included, with a 500. *)
Definition on_error (e : Exn) : Response :=
  Text "Something went wrong. Check the server logs for details." 500.

Record Served : Type := mkServed
  { response : Response;
    store : DB;
    sent : list EmailMessage.t;
    flashed : list (string * string);
    cookie_is_admin : bool }.

(** One request: a fresh unit of work on the committed store; what was not
    committed when the handler ends is dropped with the session. *)
Definition fresh (d : DB) (adm : bool) : St := mkSt d d false [] [] adm.

Definition serve (h : M Response) (d : DB) (adm : bool) : Served :=
  match h (fresh d adm) with
  | (Ret r, st) => mkServed r (saved st) (outbox st) (flashes st) (is_admin st)
  | (Raise e, st) =>
      mkServed (on_error e) (saved st) (outbox st) (flashes st) (is_admin st)
  end.

(** ** Invariants of the store *)

Definition attendance_key (a : Attendance.t) : Z * Z :=
  (Attendance.student_id a, Attendance.session_id a).

(** [uniq_attendance]: at most one row per (student, session) pair. *)
Definition attendance_unique (d : DB) : Prop :=
  NoDup (map attendance_key (attendances d)).

(** Every attendance row references an existing session. *)
Definition attendance_refs_sessions (d : DB) : Prop :=
  forall a, In a (attendances d) ->
            In (Attendance.session_id a) (map Session.id (sessions d)).

(** The state right after a successful commit of store [d]. *)
Definition committed (d : DB) (st : St) : St :=
  mkSt d d false (outbox st) (flashes st) (is_admin st).

(** A request starts with nothing staged. *)
Definition clean (st : St) : Prop := saved st = cur st /\ violated st = false.

Definition with_students (l : list Student.t) (d : DB) : DB :=
  mkDB l (sessions d) (attendances d).

Definition demoted (student : Student.t) (st : St) : St :=
  committed
    (with_students
       (update_student (Student.id student) (Student.set_active false)
                       (students (cur st)))
       (cur st))
    st.

Definition notified (env : Env) (student : Student.t) (st : St) : St :=
  committed
    (with_students
       (update_student (Student.id student)
                       (Student.set_last_notified_at (Some (utcnow env)))
                       (students (cur st)))
       (cur st))
    st.

Definition promoted (student : Student.t) (st : St) : St :=
  committed
    (with_students
       (update_student (Student.id student) (Student.set_active true)
                       (students (cur st)))
       (cur st))
    st.

Definition get_student (d : DB) (k : Z) : option Student.t :=
  find (fun s => Student.id s =? k) (students d).

(** The state in which a flush of store [d] has failed. *)
Definition failed (d : DB) (st : St) : St :=
  mkSt d (saved st) true (outbox st) (flashes st) (is_admin st).

(** What the status transition never touches in a student row. *)
Definition ident (s : Student.t) : Z * string * option string :=
  (Student.id s, Student.name s, Student.email s).

(** What a check-in never touches in a student row. *)
Definition key (s : Student.t) : Z * string :=
  (Student.id s, Student.name s).

(** [submit_checkin] in two halves, for the proofs: the lookup, creation or
    email backfill of the student, then the marking of the attendance and
    the status transition. *)
Definition resolve_student (name email : string) : M Student.t :=
  d <- query ;;
  match find (same_name name) (students d) with
  | None =>
      student <- add_student name (or_None email) ;;
      commit ;;
      ret student
  | Some student =>
      if truthy email && negb (truthy_opt (Student.email student)) then
        student <- modify_student student (Student.set_email (Some email)) ;;
        commit ;;
        ret student
      else ret student
  end.

Definition recompute_and_redirect (env : Env) (session_id : option Z)
    (student : Student.t) : M Response :=
  check_and_notify_student env student ;;
  flash "Checked in! Have a great class." "success" ;;
  ret (Redirect "checkin" session_id).

Definition mark_and_recompute (env : Env) (session_id : option Z)
    (student : Student.t) : M Response :=
  d <- query ;;
  let existing := existing_attendance d (Student.id student) session_id in
  (if negb existing then
     add_attendance env (Student.id student) session_id ;; commit
   else ret tt) ;;
  recompute_and_redirect env session_id student.

(** The student a check-in under [name] creates in store [d]. *)
Definition new_student (d : DB) (name email : string) : Student.t :=
  Student.mk (next_id (map Student.id (students d))) name (or_None email)
             true None.

(** The attendance row a check-in of student [sid] for session [k] adds. *)
Definition new_attendance (env : Env) (d : DB) (sid k : Z) : Attendance.t :=
  Attendance.mk (next_id (map Attendance.id (attendances d))) sid k true
                (utcnow env).

(** The three ways [send_email] can end, from state [st]. *)
Inductive send_email_result (st : St) : Outcome bool * St -> Prop :=
| send_skipped : send_email_result st (Ret false, st)
| send_done (msg : EmailMessage.t) :
    send_email_result st
      (Ret true,
       mkSt (cur st) (saved st) (violated st) (outbox st ++ [msg])
            (flashes st) (is_admin st))
| send_raised (e : Exn) :
    e <> IntegrityError -> send_email_result st (Raise e, st).

(** ** Scenarios *)

Definition env_unconfigured : Env :=
  mkEnv None PortUnset None None None None Delivered false 739000 1700000000.

Definition env_delivering : Env :=
  mkEnv (Some "smtp.example.org") PortUnset (Some "mailer") (Some "secret")
        None None Delivered false 739000 1700000000.

Definition env_smtp_down : Env :=
  mkEnv (Some "smtp.example.org") PortUnset (Some "mailer") (Some "secret")
        None None ConnectFails false 739000 1700000000.

Definition env_foreign_keys : Env :=
  mkEnv None PortUnset None None None None Delivered true 739000 1700000000.

Definition sam : Student.t :=
  Student.mk 1 "Sam" (Some "sam@example.org") true None.

(** Three sessions, one present row for Sam. *)
Definition db_sam : DB :=
  mkDB [sam]
       [Session.mk 1 738998; Session.mk 2 738999; Session.mk 3 739000]
       [Attendance.mk 1 1 1 true 1699000000].

(** Two sessions, one present row for Sam: exactly one half. *)
Definition db_half : DB :=
  mkDB [Student.set_active false sam]
       [Session.mk 1 738998; Session.mk 2 738999]
       [Attendance.mk 1 1 1 true 1699000000].

(** Today's session and nobody yet. *)
Definition db_today : DB := mkDB [] [Session.mk 1 739000] [].

(** A student and no session at all. *)
Definition db_no_session : DB :=
  mkDB [Student.mk 1 "Alex" None true None] [] [].

(** ** Database URL *)

Fixpoint drop (n : nat) (s : string) : string :=
  match n, s with
  | O, _ => s
  | S n', String _ r => drop n' r
  | S _, EmptyString => EmptyString
  end.

(** [needle in s] *)
Fixpoint contains (needle s : string) : bool :=
  String.prefix needle s
  || match s with
     | String _ r => contains needle r
     | EmptyString => false
     end.

(** [s.replace(old, new, 1)]: the leftmost occurrence only. *)
Fixpoint replace_first (old new s : string) : string :=
  if String.prefix old s then (new ++ drop (String.length old) s)%string
  else match s with
       | String c r => String c (replace_first old new r)
       | EmptyString => EmptyString
       end.

Definition normalize_database_url (url : string) : string :=
  if negb (truthy url) then "sqlite:///attendance.db"
  else
    let url :=
      if String.prefix "postgres://" url then
        replace_first "postgres://" "postgresql+psycopg2://" url
      else if String.prefix "postgresql://" url
              && negb (contains "+psycopg2" url) then
        replace_first "postgresql://" "postgresql+psycopg2://" url
      else url in
    if negb (contains "sslmode=" url)
       && String.prefix "postgresql+psycopg2://" url then
      let sep := if contains "?" url then "&" else "?" in
      (url ++ sep ++ "sslmode=require")%string
    else url.

(** ** Poster *)

(** [s.rstrip(c)] for a single character [c]. *)
Fixpoint rstrip_char (c : ascii) (s : string) : string :=
  match s with
  | String a r =>
      match rstrip_char c r with
      | EmptyString => if Ascii.eqb a c then EmptyString
                       else String a EmptyString
      | r' => String a r'
      end
  | EmptyString => EmptyString
  end.

(** [PUBLIC_BASE_URL] is the environment variable, if set. *)
Definition target_url (PUBLIC_BASE_URL : option string) : string :=
  (rstrip_char "/"
     (getenv_default PUBLIC_BASE_URL
        "https://YOUR-SUBDOMAIN.trycloudflare.com")
   ++ "/checkin")%string.

(** ** Attendance by date *)

Fixpoint insert_by_date_desc (s : Session.t) (l : list Session.t)
  : list Session.t :=
  match l with
  | [] => [s]
  | x :: r =>
      if Session.class_date x <=? Session.class_date s then s :: l
      else x :: insert_by_date_desc s r
  end.

(** [Session.query.order_by(Session.class_date.desc()).all()] *)
Definition order_by_date_desc (l : list Session.t) : list Session.t :=
  fold_right insert_by_date_desc [] l.

(** One section of the page: the session, the count and the students. *)
Definition day_section (d : DB) (s : Session.t) : list Cell :=
  let rows := session_roster d (Session.id s) in
  Int (Session.id s) :: Int (Session.class_date s) :: Int (count rows)
  :: flat_map (fun x => [Str (Student.name x);
                         Str (email_or (Student.email x) "—")])
              rows.

Definition dashboard_by_date : M Response :=
  d <- query ;;
  ret (Template "dashboard_by_date.html"
         (map (day_section d) (order_by_date_desc (sessions d)))).

Definition health : M Response := ret (Text "ok" 200).

(** ** Requests and steps of the store *)

Inductive Request : Type :=
| GetCheckin (session_id : option Z)
| PostSubmitCheckin (form : CheckinForm)
| GetDashboard
| GetDashboardByDate
| GetExportCsv (session_id : option Z)
| PostCreateSession (code : option string) (class_date : option Z)
| PostClearStudents (code : option string)
| AdminLogin (method : Method) (code : option string)
| AdminLogout
| GetHealth
| PostDeleteStudent (student_id : Z)
| EditStudent (student_id : Z) (method : Method) (form : EditForm).

Definition handle (env : Env) (req : Request) : M Response :=
  match req with
  | GetCheckin session_id => checkin env session_id
  | PostSubmitCheckin form => submit_checkin env form
  | GetDashboard => dashboard
  | GetDashboardByDate => dashboard_by_date
  | GetExportCsv session_id => export_csv session_id
  | PostCreateSession code class_date => create_session env code class_date
  | PostClearStudents code => clear_students env code
  | AdminLogin method code => admin_login env method code
  | AdminLogout => admin_logout
  | GetHealth => health
  | PostDeleteStudent student_id => delete_student env student_id
  | EditStudent student_id method form => edit_student student_id method form
  end.

(** The committed store after a unit of work run outside a request. *)
Definition after {A} (m : M A) (d : DB) : DB := saved (snd (m (fresh d false))).

(** One step of the store, on a backend that enforces foreign keys or not
    ([fk]): a request served; today's session looked up or created (the
    routes [index], [qr_today] and [_debug_base] do this and nothing else
    to the store); the daily sweep. *)
Inductive step (fk : bool) : DB -> DB -> Prop :=
| step_request (env : Env) (req : Request) (adm : bool) (d : DB) :
    enforce_foreign_keys env = fk ->
    step fk d (store (serve (handle env req) d adm))
| step_today (env : Env) (d : DB) :
    enforce_foreign_keys env = fk ->
    step fk d (after (get_or_create_today_session env) d)
| step_sweep (env : Env) (d : DB) :
    enforce_foreign_keys env = fk ->
    step fk d (after (daily_recompute env) d).

Inductive reachable (fk : bool) : DB -> Prop :=
| reachable_empty : reachable fk empty_db
| reachable_step (d d' : DB) :
    reachable fk d -> step fk d d' -> reachable fk d'.

(** ** Constraints of the schema as invariants *)

(** No two rows with different primary keys share a value of column [g];
    NULL is no value. *)
Definition unique_on {B} (g : Student.t -> option B) (l : list Student.t)
  : Prop :=
  forall x y b, In x l -> In y l -> g x = Some b -> g y = Some b ->
                Student.id x = Student.id y.

Definition students_ok (l : list Student.t) : Prop :=
  NoDup (map Student.id l)
  /\ unique_on (fun s => Some (Student.name s)) l
  /\ unique_on Student.email l.

Definition sessions_ok (l : list Session.t) : Prop :=
  NoDup (map Session.id l) /\ NoDup (map Session.class_date l).

Definition attendances_ok (l : list Attendance.t) : Prop :=
  NoDup (map Attendance.id l) /\ NoDup (map attendance_key l).

(** Primary keys, [unique=True] columns and [uniq_attendance]. *)
Definition schema_ok (d : DB) : Prop :=
  students_ok (students d)
  /\ sessions_ok (sessions d)
  /\ attendances_ok (attendances d).

(** Every attendance row references an existing session and an existing
    student. *)
Definition references_ok (d : DB) : Prop :=
  forall a, In a (attendances d) ->
            has_session (Attendance.session_id a) d = true
            /\ has_student (Attendance.student_id a) d = true.

(** The invariant of a store whose backend enforces foreign keys or not. *)
Definition inv (fk : bool) (d : DB) : Prop :=
  schema_ok d /\ (fk = true -> references_ok d).

(** A unit-of-work state is sound when the committed store satisfies the
    invariant and so does the session's view unless a staged change broke a
    constraint. *)
Definition sound (fk : bool) (st : St) : Prop :=
  inv fk (saved st) /\ (violated st = false -> inv fk (cur st)).

(** From a sound state where [P] holds, [m] ends in a sound state, and
    where it returns, [Q] holds of the value and the state. *)
Definition hoare {A} (fk : bool) (P : St -> Prop) (m : M A)
    (Q : A -> St -> Prop) : Prop :=
  forall st, sound fk st -> P st ->
             sound fk (snd (m st))
             /\ forall a, fst (m st) = Ret a -> Q a (snd (m st)).


(** A student with 50 present rows out of 101 sessions. *)
Definition db_band : DB :=
  mkDB [Student.mk 1 "Alex" None true None]
       (map (fun n => Session.mk (Z.of_nat n) (738000 + Z.of_nat n))
            (seq 1 101))
       (map (fun n => Attendance.mk (Z.of_nat n) 1 (Z.of_nat n) true 1699000000)
            (seq 1 50)).


Definition env_foreign_keys_delivering : Env :=
  mkEnv (Some "smtp.example.org") PortUnset (Some "mailer") (Some "secret")
        None None Delivered true 739000 1700000000.

(** * Properties *)

(** ** Ratio calculator *)

Lemma present_sessions_NoDup (l : list Attendance.t) (k : Z) :
  NoDup (map attendance_key l) ->
  NoDup (map Attendance.session_id
             (filter (fun a => (Attendance.student_id a =? k)
                               && Attendance.present a) l)).
Proof.
  induction l as [|a l IH]; simpl; intros H.
  - constructor.
  - inversion H as [|? ? Hnotin Hrest]; subst.
    destruct (Attendance.student_id a =? k) eqn:Ek; simpl; auto.
    destruct (Attendance.present a); simpl; auto.
    constructor; auto.
    intros Hin. apply Hnotin.
    apply in_map_iff in Hin. destruct Hin as (b & Hb & Hbin).
    apply filter_In in Hbin. destruct Hbin as (Hbin & Hcond).
    apply andb_true_iff in Hcond. destruct Hcond as (Hk & _).
    apply in_map_iff. exists b. split; auto.
    unfold attendance_key. apply Z.eqb_eq in Ek, Hk. congruence.
Qed.

Lemma present_le_sessions (d : DB) (k : Z) :
  attendance_unique d -> attendance_refs_sessions d ->
  present_count d k <= session_count d.
Proof.
  intros Hu Hr. unfold present_count, session_count, count, present_rows.
  apply inj_le.
  rewrite <- (length_map Session.id (sessions d)).
  rewrite <- (length_map Attendance.session_id).
  apply NoDup_incl_length.
  - apply present_sessions_NoDup. exact Hu.
  - intros x Hx. apply in_map_iff in Hx. destruct Hx as (a & <- & Ha).
    apply filter_In in Ha. apply Hr. tauto.
Qed.

Lemma ratio_in_unit (p t : Z) :
  0 <= p <= t -> t <> 0 -> (0 <= inject_Z p / inject_Z t <= 1)%Q.
Proof.
  intros Hp Ht.
  assert (Hpos : (0 < inject_Z t)%Q).
  { replace 0%Q with (inject_Z 0) by reflexivity. rewrite <- Zlt_Qlt. lia. }
  split.
  - apply Qle_shift_div_l; auto. rewrite Qmult_0_l.
    replace 0%Q with (inject_Z 0) by reflexivity. rewrite <- Zle_Qle. lia.
  - apply Qle_shift_div_r; auto. rewrite Qmult_1_l.
    rewrite <- Zle_Qle. lia.
Qed.

(** C1.  [attendance_ratio] is 1 when there is no session row, and
    otherwise the number of the student's present rows over the number of
    session rows; when attendance rows are unique per (student, session)
    and reference existing sessions, it lies between 0 and 1. *)
Theorem attendance_ratio_contract (d : DB) (student_id : Z) :
  (sessions d = [] -> attendance_ratio d student_id = 1%Q)
  /\ (sessions d <> [] ->
      attendance_ratio d student_id
      = (inject_Z (Z.of_nat (List.length
                    (filter (fun a => (Attendance.student_id a =? student_id)
                                      && Attendance.present a)
                            (attendances d))))
         / inject_Z (Z.of_nat (List.length (sessions d))))%Q)
  /\ (attendance_unique d -> attendance_refs_sessions d ->
      (0 <= attendance_ratio d student_id <= 1)%Q).
Proof.
  unfold attendance_ratio, session_count, count.
  split; [|split].
  - intros ->. reflexivity.
  - intros Hne. destruct (sessions d) as [|s l] eqn:E; [congruence|].
    reflexivity.
  - intros Hu Hr.
    destruct (Z.of_nat (List.length (sessions d)) =? 0) eqn:E.
    + split; discriminate.
    + apply ratio_in_unit.
      * split; [apply Nat2Z.is_nonneg|].
        apply (present_le_sessions d student_id Hu Hr).
      * apply Z.eqb_neq. exact E.
Qed.

Lemma attendance_ratio_contract_witness :
  (0 <= attendance_ratio db_sam 1 <= 1)%Q.
Proof.
  apply (attendance_ratio_contract db_sam 1).
  - unfold attendance_unique. simpl. repeat constructor. intros [].
  - intros a [<-|[]]. simpl. auto.
Defined.

(** ** Evaluation lemmas for the unit of work *)

Arguments alert_body : simpl never.
Arguments alert_subject : simpl never.
Arguments attendance_ratio : simpl never.
Arguments Qltb : simpl never.

Lemma opt_eqb_refl (o : option string) : opt_eqb o o = true.
Proof. destruct o; simpl; auto using String.eqb_refl. Qed.

Lemma Qltb_lt (x y : Q) : Qltb x y = true <-> (x < y)%Q.
Proof. unfold Qltb, Qlt. apply Z.ltb_lt. Qed.

Lemma Qltb_ge (x y : Q) : Qltb x y = false <-> (y <= x)%Q.
Proof. unfold Qltb, Qle. rewrite Z.ltb_ge. reflexivity. Qed.

Lemma committed_clean (d : DB) (st : St) : clean (committed d st).
Proof. split; reflexivity. Qed.

(** Changing a column other than [name] and [email] and committing. *)
Lemma modify_commit {A} (s : Student.t) (f : Student.t -> Student.t)
    (k : Student.t -> M A) (st : St) :
  Student.name (f s) = Student.name s ->
  Student.email (f s) = Student.email s ->
  violated st = false ->
  (s' <- modify_student s f ;; commit ;; k s') st
  = k (f s)
      (committed
         (with_students (update_student (Student.id s) f (students (cur st)))
                        (cur st))
         st).
Proof.
  intros Hn He Hv.
  unfold modify_student, bind, query, stage, commit, ret. simpl.
  rewrite Hn, He, String.eqb_refl, opt_eqb_refl, Hv. simpl. reflexivity.
Qed.

Lemma send_email_cases (env : Env) (to_email subject body : string) (st : St) :
  send_email_result st (send_email env to_email subject body st).
Proof.
  unfold send_email.
  destruct (SMTP_PORT env); try (apply send_raised; discriminate);
    (match goal with |- context [if ?c then _ else _] => destruct c end;
     [apply send_skipped|];
     destruct (smtp_server env); try (apply send_raised; discriminate);
     unfold bind, smtp_deliver, ret; apply send_done).
Qed.

(** Whether the email goes out or not is decided by the environment and
    the recipient alone. *)
Lemma send_email_outcome_indep (env : Env) (to_email subject body : string)
    (st1 st2 : St) :
  fst (send_email env to_email subject body st1)
  = fst (send_email env to_email subject body st2).
Proof.
  unfold send_email.
  destruct (SMTP_PORT env); try reflexivity;
    (match goal with |- context [if ?c then _ else _] => destruct c end;
     [reflexivity|];
     destruct (smtp_server env); reflexivity).
Qed.

(** Active to inactive. *)
Lemma check_and_notify_demotes (env : Env) (student : Student.t) (st : St) :
  violated st = false ->
  Qltb (attendance_ratio (cur st) (Student.id student)) DANGER_THRESHOLD = true ->
  Student.active student = true ->
  check_and_notify_student env student st
  = if truthy_opt (Student.email student) then
      match send_email env (or_empty (Student.email student)) alert_subject
              (alert_body (Student.name student)
                 (attendance_ratio (cur st) (Student.id student)))
              (demoted student st) with
      | (Ret _, st2) =>
          (Ret (Student.set_last_notified_at (Some (utcnow env))
                  (Student.set_active false student)),
           notified env student st2)
      | (Raise e, st2) => (Raise e, st2)
      end
    else (Ret (Student.set_active false student), demoted student st).
Proof.
  intros Hv Hlt Hact.
  unfold check_and_notify_student.
  unfold bind at 1. unfold query at 1. cbv beta iota.
  rewrite Hlt, Hact. cbn [andb negb]. cbv beta iota.
  rewrite modify_commit by (reflexivity || exact Hv).
  change (Student.email (Student.set_active false student))
    with (Student.email student).
  change (Student.name (Student.set_active false student))
    with (Student.name student).
  fold (demoted student st).
  destruct (truthy_opt (Student.email student)); [|reflexivity].
  unfold bind at 1.
  pose proof (send_email_cases env (or_empty (Student.email student))
                alert_subject
                (alert_body (Student.name student)
                   (attendance_ratio (cur st) (Student.id student)))
                (demoted student st)) as Hs.
  destruct Hs; try reflexivity;
    rewrite modify_commit by reflexivity; reflexivity.
Qed.

(** Inactive to active. *)
Lemma check_and_notify_promotes (env : Env) (student : Student.t) (st : St) :
  violated st = false ->
  Qltb (attendance_ratio (cur st) (Student.id student)) DANGER_THRESHOLD = false ->
  Student.active student = false ->
  check_and_notify_student env student st
  = (Ret (Student.set_active true student), promoted student st).
Proof.
  intros Hv Hlt Hact.
  unfold check_and_notify_student.
  unfold bind at 1. unfold query at 1. cbv beta iota.
  rewrite Hlt, Hact. cbn [andb negb]. cbv beta iota.
  rewrite modify_commit by (reflexivity || exact Hv).
  reflexivity.
Qed.

(** Ratio and flag agree. *)
Lemma check_and_notify_noop (env : Env) (student : Student.t) (st : St) :
  Qltb (attendance_ratio (cur st) (Student.id student)) DANGER_THRESHOLD
  = negb (Student.active student) ->
  check_and_notify_student env student st = (Ret student, st).
Proof.
  intros H.
  unfold check_and_notify_student.
  unfold bind at 1. unfold query at 1. cbv beta iota.
  rewrite H. destruct (Student.active student); reflexivity.
Qed.

Lemma get_student_update (k : Z) (f : Student.t -> Student.t)
    (l : list Student.t) (s : Student.t) :
  (forall x, Student.id (f x) = Student.id x) ->
  find (fun x => Student.id x =? k) l = Some s ->
  find (fun x => Student.id x =? k) (update_student k f l) = Some (f s).
Proof.
  intros Hid. unfold update_student.
  induction l as [|x l IH]; simpl; [discriminate|].
  destruct (Student.id x =? k) eqn:E.
  - intros [= <-]. simpl. rewrite Hid, E. reflexivity.
  - intros H. simpl. rewrite E. auto.
Qed.

(** ** Status transition *)

(** C2.  The comparison with the threshold is strict: at a ratio of exactly
    one half an active student is left as is, and an inactive one is set
    active, the change is committed, and no email goes out. *)
Theorem exactly_half_counts_as_active (env : Env) (student : Student.t)
    (st : St) :
  violated st = false ->
  (attendance_ratio (cur st) (Student.id student) == DANGER_THRESHOLD)%Q ->
  let out := check_and_notify_student env student st in
  outbox (snd out) = outbox st
  /\ (Student.active student = true -> out = (Ret student, st))
  /\ (Student.active student = false ->
      fst out = Ret (Student.set_active true student)
      /\ saved (snd out)
         = with_students
             (update_student (Student.id student) (Student.set_active true)
                             (students (cur st)))
             (cur st)
      /\ cur (snd out) = saved (snd out)
      /\ (get_student (cur st) (Student.id student) = Some student ->
          option_map Student.active
            (get_student (saved (snd out)) (Student.id student))
          = Some true)).
Proof.
  intros Hv Heq out.
  assert (Hge : Qltb (attendance_ratio (cur st) (Student.id student))
                     DANGER_THRESHOLD = false).
  { apply Qltb_ge. rewrite Heq. apply Qle_refl. }
  subst out. destruct (Student.active student) eqn:Hact.
  - rewrite check_and_notify_noop by (rewrite Hge, Hact; reflexivity).
    split; [reflexivity|]. split; [reflexivity|]. discriminate.
  - rewrite check_and_notify_promotes by assumption.
    repeat split; try reflexivity; try discriminate.
    intros Hget. unfold get_student in *. simpl.
    rewrite (get_student_update _ _ _ student) by auto. reflexivity.
Qed.

Lemma exactly_half_counts_as_active_witness :
  option_map Student.active
    (get_student
       (saved (snd (check_and_notify_student env_unconfigured
                      (Student.set_active false sam) (fresh db_half false))))
       1)
  = Some true.
Proof.
  apply (exactly_half_counts_as_active env_unconfigured
           (Student.set_active false sam) (fresh db_half false));
    reflexivity.
Defined.

(** C3.  A student who is active with a ratio below one half is set
    inactive and that change is committed before the email is tried:
    whatever the mail configuration and transport do, the committed row is
    inactive, and when the attempt raises, the committed store is the
    demotion and nothing else. *)
Theorem demotion_survives_email (env : Env) (student : Student.t) (st : St) :
  violated st = false ->
  get_student (cur st) (Student.id student) = Some student ->
  Student.active student = true ->
  (attendance_ratio (cur st) (Student.id student) < DANGER_THRESHOLD)%Q ->
  let out := check_and_notify_student env student st in
  option_map Student.active
    (get_student (saved (snd out)) (Student.id student)) = Some false
  /\ (forall e, fst out = Raise e ->
        saved (snd out)
        = with_students
            (update_student (Student.id student) (Student.set_active false)
                            (students (cur st)))
            (cur st))
  /\ (fst (send_email env (or_empty (Student.email student)) alert_subject
             (alert_body (Student.name student)
                (attendance_ratio (cur st) (Student.id student))) st)
      = Ret false ->
      outbox (snd out) = outbox st
      /\ exists s, fst out = Ret s /\ Student.active s = false).
Proof.
  intros Hv Hget Hact Hlt out. subst out.
  apply Qltb_lt in Hlt.
  rewrite check_and_notify_demotes by assumption.
  assert (Hdem : get_student (cur (demoted student st)) (Student.id student)
                 = Some (Student.set_active false student)).
  { unfold get_student in *. simpl.
    apply get_student_update; auto. }
  destruct (truthy_opt (Student.email student)) eqn:Hmail.
  - rewrite (send_email_outcome_indep env _ _ _ st (demoted student st)).
    destruct (send_email_cases env (or_empty (Student.email student))
                alert_subject
                (alert_body (Student.name student)
                   (attendance_ratio (cur st) (Student.id student)))
                (demoted student st)); simpl.
    + split; [|split].
      * unfold get_student in *. simpl. simpl in Hdem.
        rewrite (get_student_update _ _ _ (Student.set_active false student))
          by auto.
        reflexivity.
      * discriminate.
      * intros _. split; [reflexivity|]. eexists; split; reflexivity.
    + split; [|split]; try discriminate.
      unfold get_student in *. simpl. simpl in Hdem.
      rewrite (get_student_update _ _ _ (Student.set_active false student))
        by auto.
      reflexivity.
    + split; [|split]; try discriminate.
      * unfold get_student in *. simpl in *. rewrite Hdem. reflexivity.
      * intros _ _. reflexivity.
  - simpl. split; [|split].
    + unfold get_student in *. simpl in *. rewrite Hdem. reflexivity.
    + discriminate.
    + intros _. split; [reflexivity|]. eexists; split; reflexivity.
Qed.

Lemma demotion_survives_email_witness :
  option_map Student.active
    (get_student
       (saved (snd (check_and_notify_student env_smtp_down sam
                      (fresh db_sam false))))
       1)
  = Some false.
Proof.
  apply (demotion_survives_email env_smtp_down sam (fresh db_sam false));
    reflexivity.
Defined.




(** ** Reporting *)

(** Where at least one session exists the export line and the ratio
    calculator agree. *)
Lemma export_matches_ratio (d : DB) (s : Student.t) :
  sessions d <> [] ->
  export_pct d s = percent (attendance_ratio d (Student.id s))
  /\ export_status d s
     = status_label (50 <=? percent (attendance_ratio d (Student.id s))).
Proof.
  intros Hne.
  assert (E : export_pct d s = percent (attendance_ratio d (Student.id s))).
  { unfold export_pct, attendance_ratio, or_one, session_count, count.
    destruct (sessions d) as [|x l]; [congruence|]. reflexivity. }
  split; [exact E|]. unfold export_status. rewrite E. reflexivity.
Qed.

(** C5.  With a student and no session row (the store a check-in without
    session leaves behind on an empty store), the ratio calculator and the
    dashboard give 100 percent, and the all-students export gives 0 percent
    and the status Inactive. *)
Theorem export_without_sessions_reports_zero :
  store (serve (submit_checkin env_unconfigured
                  (mkCheckinForm None (Some "Alex") None))
               empty_db false)
  = db_no_session
  /\ attendance_ratio db_no_session 1 = 1%Q
  /\ percent (attendance_ratio db_no_session 1) = 100
  /\ response (serve dashboard db_no_session false)
     = Template "dashboard.html"
         [[Int 1; Str "Alex"; Str "—"; Int 100; Str "Active"]]
  /\ response (serve (export_csv None) db_no_session false)
     = Csv [[Str "name"; Str "email"; Str "attendance_percent"; Str "status";
             Str "present_days"; Str "total_sessions"];
            [Str "Alex"; Str ""; Int 0; Str "Inactive"; Int 0; Int 0]].
Proof. repeat split. Qed.

(** ** Check-in against a session that does not exist *)

(** C6.  A check-in for session 99 on an empty store: [submit_checkin]
    never looks the session up.  On a store that does not enforce foreign
    keys the student and an attendance row for session 99 are committed and
    the answer is the usual redirect; on a store that does, the student is
    committed and the answer is a 500.  The form route [checkin] does look
    the session up and raises not-found. *)
Theorem checkin_unknown_session_changes_state :
  let form := mkCheckinForm (Some 99) (Some "Alex") None in
  has_session 99 empty_db = false
  /\ serve (submit_checkin env_unconfigured form) empty_db false
     = mkServed (Redirect "checkin" (Some 99))
         (mkDB [Student.mk 1 "Alex" None true None] []
               [Attendance.mk 1 1 99 true 1700000000])
         []
         [("Checked in! Have a great class.", "success")]
         false
  /\ serve (submit_checkin env_foreign_keys form) empty_db false
     = mkServed
         (Text "Something went wrong. Check the server logs for details." 500)
         (mkDB [Student.mk 1 "Alex" None true None] [] [])
         [] [] false
  /\ checkin env_unconfigured (Some 99) (fresh empty_db false)
     = (Raise NotFound, fresh empty_db false).
Proof. repeat split. Qed.

(** ** Admin gates *)

Ltac run_handler :=
  repeat progress
    (unfold bind, ret, raise, query, stage, commit, rollback, flash,
       require_admin, cookie_get_is_admin, get_student_or_404, add_session,
       try_except, modify_student;
     simpl).

Ltac break_match :=
  repeat match goal with
         | |- context [match ?x with _ => _ end] =>
             lazymatch x with
             | context [match _ with _ => _ end] => fail
             | _ => destruct x eqn:?; simpl
             end
         end.

(** C7 as first stated does not hold: the admin flag in the cookie does
    not open [create_session]; without the code the answer is Forbidden. *)
Lemma admin_flag_does_not_open_create_session :
  ~ (forall (env : Env) (code : option string) (class_date : option Z)
            (st : St),
        is_admin st = true ->
        fst (create_session env code class_date st) <> Ret Forbidden).
Proof.
  intros H.
  apply (H env_unconfigured None (Some 739001) (fresh empty_db true) eq_refl).
  reflexivity.
Qed.

(** C7 (amended).  [create_session] and [clear_students] answer Forbidden,
    touching nothing, exactly when the code in the form is not the
    configured one, whatever the admin flag; [delete_student] and
    [edit_student] answer Forbidden, touching nothing, exactly when the
    admin flag is not set. *)
Theorem admin_gates (env : Env) (st : St) :
  (forall code class_date,
      if opt_eqb code (Some (admin_code env))
      then fst (create_session env code class_date st) <> Ret Forbidden
      else create_session env code class_date st = (Ret Forbidden, st))
  /\ (forall code,
      if String.eqb (or_empty code) (admin_code env)
      then fst (clear_students env code st) <> Ret Forbidden
      else clear_students env code st = (Ret Forbidden, st))
  /\ (forall student_id,
      if is_admin st
      then fst (delete_student env student_id st) <> Ret Forbidden
      else delete_student env student_id st = (Ret Forbidden, st))
  /\ (forall student_id method form,
      if is_admin st
      then fst (edit_student student_id method form st) <> Ret Forbidden
      else edit_student student_id method form st = (Ret Forbidden, st)).
Proof.
  split; [|split; [|split]].
  - intros code class_date. unfold create_session.
    destruct (opt_eqb code (Some (admin_code env))); [|reflexivity].
    simpl. destruct class_date; run_handler; break_match; discriminate.
  - intros code. unfold clear_students.
    destruct (String.eqb (or_empty code) (admin_code env)); [|reflexivity].
    run_handler; break_match; discriminate.
  - intros student_id. unfold delete_student. run_handler.
    destruct (is_admin st); [|reflexivity].
    simpl. break_match; discriminate.
  - intros student_id method form. unfold edit_student. run_handler.
    destruct (is_admin st); [|reflexivity].
    simpl. break_match; discriminate.
Qed.

(** ** Clearing the students *)

(** C9.  [clear_students] never changes the session rows; with the right
    code it commits a store with no student, no attendance row and the
    sessions it found. *)
Theorem clear_students_keeps_sessions (env : Env) (code : option string)
    (d : DB) (adm : bool) :
  let r := serve (clear_students env code) d adm in
  sessions (store r) = sessions d
  /\ (String.eqb (or_empty code) (admin_code env) = true ->
      store r = mkDB [] (sessions d) []
      /\ response r = Redirect "dashboard" None).
Proof.
  unfold serve, clear_students.
  destruct (String.eqb (or_empty code) (admin_code env)).
  - run_handler. rewrite andb_false_r. simpl. auto.
  - simpl. split; [reflexivity|discriminate].
Qed.

Lemma clear_students_keeps_sessions_witness :
  store (serve (clear_students env_unconfigured (Some "letmein")) db_sam false)
  = mkDB [] (sessions db_sam) [].
Proof.
  apply (clear_students_keeps_sessions env_unconfigured (Some "letmein")
           db_sam false).
  reflexivity.
Defined.

(** ** Check-in *)

Arguments check_and_notify_student : simpl never.

Lemma update_student_map {B} (g : Student.t -> B) (k : Z)
    (f : Student.t -> Student.t) (l : list Student.t) :
  (forall x, g (f x) = g x) ->
  map g (update_student k f l) = map g l.
Proof.
  intros Hg. unfold update_student. rewrite map_map.
  apply map_ext. intros x. destruct (Student.id x =? k); auto.
Qed.

Lemma ident_key (l l' : list Student.t) :
  map ident l' = map ident l -> map key l' = map key l.
Proof.
  intros H.
  assert (E : forall m, map key m = map (fun p => (fst (fst p), snd (fst p)))
                                        (map ident m)).
  { intros m. rewrite map_map. reflexivity. }
  rewrite (E l), (E l'), H. reflexivity.
Qed.


Lemma in_map_ident (l l' : list Student.t) (s : Student.t) :
  map ident l' = map ident l -> In s l ->
  exists s', In s' l' /\ ident s' = ident s.
Proof.
  intros Hmap Hin.
  assert (H : In (ident s) (map ident l')).
  { rewrite Hmap. apply in_map. exact Hin. }
  apply in_map_iff in H. destruct H as (s' & E & Hin'). eauto.
Qed.

(** The status transition, started with nothing staged, ends with nothing
    staged, never fails on a constraint, and touches only the [active] and
    [last_notified_at] columns. *)
Lemma check_and_notify_frame (env : Env) (s : Student.t) (st : St) :
  clean st ->
  let out := check_and_notify_student env s st in
  clean (snd out)
  /\ sessions (cur (snd out)) = sessions (cur st)
  /\ attendances (cur (snd out)) = attendances (cur st)
  /\ map ident (students (cur (snd out))) = map ident (students (cur st))
  /\ fst out <> Raise IntegrityError.
Proof.
  intros [Hs Hv] out. subst out.
  destruct (Qltb (attendance_ratio (cur st) (Student.id s)) DANGER_THRESHOLD)
    eqn:Hlt; destruct (Student.active s) eqn:Hact.
  - rewrite check_and_notify_demotes by assumption.
    destruct (truthy_opt (Student.email s)).
    + destruct (send_email_cases env (or_empty (Student.email s))
                  alert_subject
                  (alert_body (Student.name s)
                     (attendance_ratio (cur st) (Student.id s)))
                  (demoted s st)); simpl;
        repeat rewrite update_student_map by reflexivity;
        repeat split; try discriminate.
      congruence.
    + simpl. rewrite update_student_map by reflexivity.
      repeat split; discriminate.
  - rewrite check_and_notify_noop by (rewrite Hlt, Hact; reflexivity).
    simpl. repeat split; auto; discriminate.
  - rewrite check_and_notify_noop by (rewrite Hlt, Hact; reflexivity).
    simpl. repeat split; auto; discriminate.
  - rewrite check_and_notify_promotes by assumption.
    simpl. rewrite update_student_map by reflexivity.
    repeat split; discriminate.
Qed.

Lemma recompute_frame (env : Env) (session_id : option Z) (s : Student.t)
    (st : St) :
  clean st ->
  let out := recompute_and_redirect env session_id s st in
  clean (snd out)
  /\ sessions (cur (snd out)) = sessions (cur st)
  /\ attendances (cur (snd out)) = attendances (cur st)
  /\ map ident (students (cur (snd out))) = map ident (students (cur st))
  /\ fst out <> Raise IntegrityError.
Proof.
  intros Hc out. subst out.
  pose proof (check_and_notify_frame env s st Hc) as H. simpl in H.
  unfold recompute_and_redirect, bind, flash, ret.
  destruct (check_and_notify_student env s st) as [[s'|e] st']; simpl in *.
  - destruct H as ([Hs Hv] & H1 & H2 & H3 & _).
    unfold clean. simpl. repeat split; auto. discriminate.
  - destruct H as (Hcl & H1 & H2 & H3 & Hne).
    repeat split; try apply Hcl; auto. congruence.
Qed.

Lemma submit_checkin_halves (env : Env) (form : CheckinForm) (st : St) :
  truthy (strip (or_empty (form_name form))) = true ->
  submit_checkin env form st
  = match resolve_student (strip (or_empty (form_name form)))
            (strip (or_empty (form_email form))) st with
    | (Ret student, st1) =>
        mark_and_recompute env (form_session_id form) student st1
    | (Raise e, st1) => (Raise e, st1)
    end.
Proof.
  intros Hname. unfold submit_checkin. rewrite Hname. reflexivity.
Qed.

Lemma same_name_refl (name : string) (s : Student.t) :
  Student.name s = name -> same_name name s = true.
Proof. intros <-. unfold same_name. apply String.eqb_refl. Qed.

Lemma same_name_not_taken (name : string) (l : list Student.t) :
  find (same_name name) l = None -> name_taken name l = false.
Proof.
  induction l as [|x l IH]; simpl; [reflexivity|].
  destruct (same_name name x) eqn:E; [discriminate|].
  intros H. rewrite (IH H), orb_false_r.
  destruct (String.eqb (Student.name x) name) eqn:En; [|reflexivity].
  apply String.eqb_eq in En. rewrite (same_name_refl name x En) in E.
  discriminate.
Qed.


(** A name that matches no student: the student is created, unless the
    email is already another student's. *)
Lemma resolve_new (name email : string) (st : St) :
  violated st = false ->
  find (same_name name) (students (cur st)) = None ->
  resolve_student name email st
  = let d' := with_students
                (students (cur st) ++ [new_student (cur st) name email])
                (cur st) in
    if email_taken (or_None email) (students (cur st))
    then (Raise IntegrityError, failed d' st)
    else (Ret (new_student (cur st) name email), committed d' st).
Proof.
  intros Hv Hnone.
  unfold resolve_student, bind at 1, query at 1. cbv beta iota.
  rewrite Hnone.
  unfold add_student, bind, query, stage, commit, ret. simpl.
  rewrite Hv, (same_name_not_taken _ _ Hnone). simpl.
  destruct (email_taken (or_None email) (students (cur st))); reflexivity.
Qed.

Lemma backfill_differs (email : string) (o : option string) :
  truthy email && negb (truthy_opt o) = true ->
  opt_eqb (Some email) o = false.
Proof.
  destruct o as [e|]; simpl; [|reflexivity].
  destruct email; simpl; [discriminate|].
  destruct e; simpl; [reflexivity|discriminate].
Qed.

Arguments opt_eqb : simpl never.
Arguments email_taken : simpl never.
Arguments name_taken : simpl never.

(** A name that matches a student: the email is filled in when the student
    had none and one is given, unless it is already another student's. *)
Lemma resolve_found (name email : string) (st : St) (s : Student.t) :
  violated st = false ->
  find (same_name name) (students (cur st)) = Some s ->
  resolve_student name email st
  = if truthy email && negb (truthy_opt (Student.email s)) then
      let d' := with_students
                  (update_student (Student.id s)
                                  (Student.set_email (Some email))
                                  (students (cur st)))
                  (cur st) in
      if email_taken (Some email) (others (Student.id s) (students (cur st)))
      then (Raise IntegrityError, failed d' st)
      else (Ret (Student.set_email (Some email) s), committed d' st)
    else (Ret s, st).
Proof.
  intros Hv Hfind.
  unfold resolve_student, bind at 1, query at 1. cbv beta iota.
  rewrite Hfind.
  destruct (truthy email && negb (truthy_opt (Student.email s))) eqn:Hb;
    [|reflexivity].
  unfold modify_student, bind, query, stage, commit, ret. simpl.
  rewrite Hv, String.eqb_refl, (backfill_differs _ _ Hb). simpl.
  destruct (email_taken (Some email) _); reflexivity.
Qed.

(** The second half of a check-in for session [k]. *)
Lemma mark_eval (env : Env) (k : Z) (s : Student.t) (st : St) :
  violated st = false ->
  mark_and_recompute env (Some k) s st
  = if existsb (attendance_for (Student.id s) k) (attendances (cur st))
    then recompute_and_redirect env (Some k) s st
    else
      let d' := mkDB (students (cur st)) (sessions (cur st))
                     (attendances (cur st)
                      ++ [new_attendance env (cur st) (Student.id s) k]) in
      if enforce_foreign_keys env
         && negb (has_session k (cur st) && has_student (Student.id s) (cur st))
      then (Raise IntegrityError, failed d' st)
      else recompute_and_redirect env (Some k) s (committed d' st).
Proof.
  intros Hv.
  unfold mark_and_recompute, bind at 1, query at 1. cbv beta iota.
  unfold existing_attendance.
  destruct (existsb (attendance_for (Student.id s) k) (attendances (cur st)))
    eqn:Hex; simpl.
  - reflexivity.
  - unfold add_attendance, bind, query, stage, commit, ret. simpl.
    rewrite Hv, Hex. simpl.
    destruct (enforce_foreign_keys env
              && negb (has_session k (cur st)
                       && has_student (Student.id s) (cur st)));
      reflexivity.
Qed.

Lemma attendance_for_key (i k : Z) (a : Attendance.t) :
  attendance_for i k a = true <-> attendance_key a = (i, k).
Proof.
  unfold attendance_for, attendance_key. rewrite andb_true_iff.
  rewrite !Z.eqb_eq. split.
  - intros [-> ->]. reflexivity.
  - intros [= -> ->]. auto.
Qed.

Lemma existsb_attendance_key (i k : Z) (l : list Attendance.t) :
  existsb (attendance_for i k) l = true <-> In (i, k) (map attendance_key l).
Proof.
  rewrite existsb_exists, in_map_iff. split.
  - intros (a & Hin & Ha). exists a. split; auto.
    apply attendance_for_key. exact Ha.
  - intros (a & Ha & Hin). exists a. split; auto.
    apply attendance_for_key. exact Ha.
Qed.


Lemma unique_after_insert (i k n ts : Z) (l : list Attendance.t) :
  NoDup (map attendance_key l) ->
  existsb (attendance_for i k) l = false ->
  NoDup (map attendance_key (l ++ [Attendance.mk n i k true ts])).
Proof.
  intros Hnd Hex. rewrite map_app. apply NoDup_app; auto.
  - simpl. constructor; [intros []|constructor].
  - intros x Hx [<-|[]].
    change (In (i, k) (map attendance_key l)) in Hx.
    apply existsb_attendance_key in Hx. congruence.
Qed.




Lemma store_serve (h : M Response) (d : DB) (adm : bool) :
  store (serve h d adm) = saved (snd (h (fresh d adm)))
  /\ cookie_is_admin (serve h d adm) = is_admin (snd (h (fresh d adm))).
Proof.
  unfold serve. destruct (h (fresh d adm)) as [[r|e] st]; split; reflexivity.
Qed.




(** ** Blank emails *)

Lemma mark_without_session (env : Env) (s : Student.t) (st : St) :
  mark_and_recompute env None s st = (Raise IntegrityError, failed (cur st) st).
Proof.
  unfold mark_and_recompute, add_attendance, bind, query, stage, commit.
  simpl. rewrite orb_true_r. reflexivity.
Qed.




(** ** Scenarios of the specification *)

(** No session exists; the check-in page is opened and Alex checks in:
    today's session is created, one attendance row links Alex to it, the
    ratio is 1 and Alex stays active. *)
Example scenario_first_checkin :
  let r0 := serve (checkin env_unconfigured None) empty_db false in
  let r1 := serve (submit_checkin env_unconfigured
                     (mkCheckinForm (Some 1) (Some "Alex") None))
                  (store r0) false in
  store r0 = db_today
  /\ store r1
     = mkDB [Student.mk 1 "Alex" None true None] [Session.mk 1 739000]
            [Attendance.mk 1 1 1 true 1700000000]
  /\ attendance_ratio (store r1) 1 = 1%Q.
Proof. repeat split. Qed.

(** Three sessions, one present row for Sam: the ratio is a third, Sam is
    set inactive and exactly one email goes out; a second sweep sends
    nothing more. *)
Example scenario_one_third :
  let out := daily_recompute env_delivering (fresh db_sam false) in
  let again := daily_recompute env_delivering (snd out) in
  (attendance_ratio db_sam 1 == 1 # 3)%Q
  /\ option_map Student.active (get_student (saved (snd out)) 1) = Some false
  /\ List.length (outbox (snd out)) = 1%nat
  /\ map EmailMessage.To (outbox (snd out)) = ["sam@example.org"]
  /\ outbox (snd again) = outbox (snd out).
Proof. repeat split. Qed.

(** A name differing only by case reuses the student. *)
Example scenario_case_insensitive :
  let r := serve (submit_checkin env_unconfigured
                    (mkCheckinForm (Some 2) (Some "SAM") None))
                 db_sam false in
  map Student.id (students (store r)) = [1]
  /\ map attendance_key (attendances (store r)) = [(1, 1); (1, 2)].
Proof. repeat split. Qed.

(** * Further properties *)

(** ** Database URL *)

Lemma prefix_split (p s : string) :
  String.prefix p s = true -> s = (p ++ drop (String.length p) s)%string.
Proof.
  revert s. induction p as [|a p IH]; intros s.
  - reflexivity.
  - destruct s as [|b s]; simpl; [intros H; discriminate H|].
    destruct (ascii_dec a b) as [->|]; [|intros H; discriminate H].
    intros H. f_equal. apply IH. exact H.
Qed.

Lemma prefix_append_l (p a b : string) :
  String.prefix p a = true -> String.prefix p (a ++ b) = true.
Proof.
  revert a. induction p as [|c p IH]; intros a.
  - destruct (a ++ b)%string; reflexivity.
  - destruct a as [|x a]; simpl; [intros H; discriminate H|].
    destruct (ascii_dec c x); [|intros H; discriminate H]. apply IH.
Qed.

Lemma prefix_refl_append (p r : string) : String.prefix p (p ++ r) = true.
Proof.
  induction p as [|c p IH]; simpl.
  - destruct r; reflexivity.
  - destruct (ascii_dec c c); [exact IH|congruence].
Qed.

Lemma contains_cons (n : string) (x : ascii) (a : string) :
  contains n (String x a) = String.prefix n (String x a) || contains n a.
Proof. reflexivity. Qed.

Lemma contains_append_l (n a b : string) :
  contains n a = true -> contains n (a ++ b) = true.
Proof.
  induction a as [|x a IH]; intros H.
  - destruct n; [|discriminate H]. destruct b; reflexivity.
  - change (String x a ++ b)%string with (String x (a ++ b)).
    rewrite contains_cons in *.
    apply orb_true_iff in H. destruct H as [H|H].
    + change (String x (a ++ b)) with (String x a ++ b)%string.
      rewrite (prefix_append_l _ _ b H). reflexivity.
    + rewrite (IH H). apply orb_true_r.
Qed.

Lemma contains_append_r (n a b : string) :
  contains n b = true -> contains n (a ++ b) = true.
Proof.
  intros H. induction a as [|x a IH]; [exact H|].
  change (String x a ++ b)%string with (String x (a ++ b)).
  rewrite contains_cons, IH. apply orb_true_r.
Qed.

Lemma contains_here (n r : string) : contains n (n ++ r) = true.
Proof.
  pose proof (prefix_refl_append n r) as H.
  destruct (n ++ r)%string.
  - unfold contains. rewrite H. reflexivity.
  - rewrite contains_cons, H. reflexivity.
Qed.

Lemma truthy_append (a b : string) :
  truthy a = true -> truthy (a ++ b) = true.
Proof. destruct a; [discriminate|reflexivity]. Qed.

(** A URL that already names the driver and an [sslmode] is left alone. *)
Lemma normalize_fixed (v : string) :
  String.prefix "postgresql+psycopg2://" v = true ->
  contains "sslmode=" v = true ->
  normalize_database_url v = v.
Proof.
  intros Hp Hs. pose proof (prefix_split _ _ Hp) as E.
  assert (T : truthy v = true) by (rewrite E; reflexivity).
  assert (P1 : String.prefix "postgres://" v = false)
    by (rewrite E; reflexivity).
  assert (P2 : String.prefix "postgresql://" v = false)
    by (rewrite E; reflexivity).
  unfold normalize_database_url. rewrite T, P1, P2. cbn [negb andb].
  rewrite Hs. reflexivity.
Qed.

(** The last step of [normalize_database_url] on a URL that names the
    driver. *)
Lemma add_sslmode_fixed (u : string) :
  String.prefix "postgresql+psycopg2://" u = true ->
  let v := if negb (contains "sslmode=" u)
              && String.prefix "postgresql+psycopg2://" u
           then (u ++ (if contains "?" u then "&" else "?")
                   ++ "sslmode=require")%string
           else u in
  String.prefix "postgresql+psycopg2://" v = true
  /\ contains "sslmode=" v = true.
Proof.
  intros Hp. rewrite Hp, andb_true_r.
  destruct (contains "sslmode=" u) eqn:Hs; simpl.
  - auto.
  - split.
    + apply prefix_append_l. exact Hp.
    + apply contains_append_r. apply contains_append_r.
      apply (contains_here "sslmode=" "require").
Qed.

(** What comes out of [normalize_database_url]: the default, a URL with the
    driver and an [sslmode], or the input as it was. *)
Lemma normalize_cases (url : string) :
  (url = "" /\ normalize_database_url url = "sqlite:///attendance.db")
  \/ (String.prefix "postgresql+psycopg2://" (normalize_database_url url)
      = true
      /\ contains "sslmode=" (normalize_database_url url) = true)
  \/ (normalize_database_url url = url
      /\ truthy url = true
      /\ String.prefix "postgres://" url = false
      /\ String.prefix "postgresql+psycopg2://" url = false).
Proof.
  unfold normalize_database_url.
  destruct (truthy url) eqn:Ht; cbn [negb];
    [|left; destruct url; [split; reflexivity|discriminate Ht]].
  destruct (String.prefix "postgres://" url) eqn:H1.
  - right. left. apply add_sslmode_fixed.
    destruct url; [discriminate|].
    unfold replace_first. rewrite H1. apply prefix_refl_append.
  - destruct (String.prefix "postgresql://" url
              && negb (contains "+psycopg2" url)) eqn:H2.
    + right. left. apply add_sslmode_fixed.
      apply andb_true_iff in H2. destruct H2 as [H2 _].
      destruct url; [discriminate|].
      unfold replace_first. rewrite H2. apply prefix_refl_append.
    + destruct (String.prefix "postgresql+psycopg2://" url) eqn:H3.
      * right. left. pose proof (add_sslmode_fixed url H3) as H.
        cbv zeta in H. rewrite H3 in H. exact H.
      * right. right. rewrite andb_false_r. auto.
Qed.

(** X1.  [normalize_database_url] is idempotent: normalizing a normalized
    URL changes nothing. *)
Theorem normalize_database_url_idempotent (url : string) :
  normalize_database_url (normalize_database_url url)
  = normalize_database_url url.
Proof.
  destruct (normalize_cases url) as [[_ E]|[[Hp Hs]|(E & _)]].
  - rewrite E. reflexivity.
  - apply normalize_fixed; assumption.
  - rewrite E. exact E.
Qed.

(** X2.  What [normalize_database_url] returns is never empty, a URL that
    began with [postgres://] comes out with the psycopg2 driver, and every
    URL that comes out with the driver carries an [sslmode]. *)
Theorem normalize_database_url_output (url : string) :
  truthy (normalize_database_url url) = true
  /\ (String.prefix "postgres://" url = true ->
      String.prefix "postgresql+psycopg2://" (normalize_database_url url)
      = true)
  /\ (String.prefix "postgresql+psycopg2://" (normalize_database_url url)
      = true ->
      contains "sslmode=" (normalize_database_url url) = true).
Proof.
  destruct (normalize_cases url) as [[-> E]|[[Hp Hs]|(E & Ht & H1 & H3)]].
  - repeat split; intros H; discriminate H.
  - repeat split; auto.
    rewrite (prefix_split _ _ Hp). reflexivity.
  - rewrite E. repeat split; auto; congruence.
Qed.

Lemma normalize_database_url_output_witness :
  String.prefix "postgresql+psycopg2://"
    (normalize_database_url "postgres://u:p@db.example.org/attendance")
  = true.
Proof.
  apply (normalize_database_url_output
           "postgres://u:p@db.example.org/attendance").
  reflexivity.
Defined.

(** ** Poster *)

Lemma rstrip_char_snoc (c : ascii) (s : string) :
  rstrip_char c (s ++ String c "") = rstrip_char c s.
Proof.
  induction s as [|a s IH]; simpl.
  - rewrite Ascii.eqb_refl. reflexivity.
  - rewrite IH. reflexivity.
Qed.

Lemma rstrip_char_no_trailing (c : ascii) (s r : string) :
  rstrip_char c s <> (r ++ String c "")%string.
Proof.
  revert r. induction s as [|a s IH]; intros r; simpl.
  - destruct r; discriminate.
  - destruct (rstrip_char c s) as [|b t] eqn:E.
    + destruct (Ascii.eqb a c) eqn:Ea.
      * destruct r; discriminate.
      * destruct r as [|x r]; simpl.
        -- intros [= ->]. rewrite Ascii.eqb_refl in Ea. discriminate.
        -- destruct r; discriminate.
    + destruct r as [|x r]; simpl; [discriminate|].
      intros [= _ H]. apply (IH r). exact H.
Qed.

(** X3.  The URL printed on the poster does not depend on a trailing slash
    of [PUBLIC_BASE_URL]: it is a base that does not end in a slash,
    followed by [/checkin]. *)
Theorem target_url_trailing_slash :
  (forall base : string,
      target_url (Some (base ++ "/")%string) = target_url (Some base))
  /\ (forall u : option string,
      exists base : string,
        target_url u = (base ++ "/checkin")%string
        /\ forall r : string, base <> (r ++ "/")%string).
Proof.
  split.
  - intros base. unfold target_url. simpl getenv_default.
    rewrite rstrip_char_snoc. reflexivity.
  - intros u. eexists. split; [reflexivity|].
    intros r. apply rstrip_char_no_trailing.
Qed.

(** ** Rules for the unit of work *)

Lemma hoare_ret {A} (fk : bool) (P : St -> Prop) (a : A)
    (Q : A -> St -> Prop) :
  (forall st, P st -> Q a st) -> hoare fk P (ret a) Q.
Proof.
  intros H st Hs HP. split; [exact Hs|].
  intros b [= <-]. apply H. exact HP.
Qed.

Lemma hoare_raise {A} (fk : bool) (P : St -> Prop) (e : Exn)
    (Q : A -> St -> Prop) :
  hoare fk P (raise e) Q.
Proof. intros st Hs _. split; [exact Hs|]. intros a H. discriminate H. Qed.

Lemma hoare_bind {A B} (fk : bool) (P : St -> Prop) (m : M A)
    (Q : A -> St -> Prop) (k : A -> M B) (R : B -> St -> Prop) :
  hoare fk P m Q -> (forall a, hoare fk (Q a) (k a) R) ->
  hoare fk P (bind m k) R.
Proof.
  intros Hm Hk st Hs HP. unfold bind.
  destruct (Hm st Hs HP) as [Hs' HQ].
  destruct (m st) as [[a|e] st']; simpl in *.
  - apply Hk; auto.
  - split; [exact Hs'|]. intros b H. discriminate H.
Qed.

Lemma hoare_weaken {A} (fk : bool) (P P' : St -> Prop) (m : M A)
    (Q Q' : A -> St -> Prop) :
  hoare fk P m Q ->
  (forall st, sound fk st -> P' st -> P st) ->
  (forall a st, Q a st -> Q' a st) ->
  hoare fk P' m Q'.
Proof.
  intros H HP HQ st Hs HP'.
  destruct (H st Hs (HP st Hs HP')) as [Hs' Hq]. split; auto.
Qed.

(** A precondition that does not depend on the state can be assumed. *)
Lemma hoare_assume {A} (fk : bool) (F : Prop) (P : St -> Prop) (m : M A)
    (Q : A -> St -> Prop) :
  (F -> hoare fk P m Q) -> hoare fk (fun st => F /\ P st) m Q.
Proof. intros H st Hs [HF HP]. apply H; assumption. Qed.

Lemma hoare_query (fk : bool) (P : St -> Prop) :
  hoare fk P query
        (fun d st => d = cur st /\ (violated st = false -> inv fk d) /\ P st).
Proof.
  intros st Hs HP. split; [exact Hs|].
  intros d [= <-]. simpl. split; [reflexivity|]. split; [apply Hs|exact HP].
Qed.

Lemma hoare_stage (fk : bool) (P : St -> Prop) (d' : DB) (bad : bool) :
  (forall st, P st -> inv fk (cur st) -> bad = false -> inv fk d') ->
  hoare fk P (stage d' bad) (fun _ st => cur st = d').
Proof.
  intros H st [Hsaved Hcur] HP. split.
  - split; [exact Hsaved|]. simpl. intros Hv.
    apply orb_false_iff in Hv. destruct Hv as [Hv Hb].
    apply (H st); auto.
  - intros [] _. reflexivity.
Qed.

Lemma hoare_commit (fk : bool) (P : St -> Prop) :
  hoare fk P commit (fun _ st => saved st = cur st /\ violated st = false).
Proof.
  intros st [Hsaved Hcur] _. unfold commit.
  destruct (violated st) eqn:Hv; simpl.
  - split; [split; [exact Hsaved|congruence]|]. intros a H. discriminate H.
  - split; [split; auto|]. intros a _. split; reflexivity.
Qed.

Lemma hoare_rollback (fk : bool) (P : St -> Prop) :
  hoare fk P rollback (fun _ st => saved st = cur st /\ violated st = false).
Proof.
  intros st [Hsaved Hcur] _. split; [split; auto|].
  intros a _. split; reflexivity.
Qed.

(** An operation that leaves the two stores and the flag alone. *)
Lemma hoare_silent {A} (fk : bool) (P : St -> Prop) (m : M A) :
  (forall st, cur (snd (m st)) = cur st /\ saved (snd (m st)) = saved st
              /\ violated (snd (m st)) = violated st) ->
  hoare fk P m (fun _ _ => True).
Proof.
  intros H st [Hsaved Hcur] _. destruct (H st) as (Hc & Hs & Hv).
  split; [|trivial]. split; rewrite ?Hs, ?Hc, ?Hv; assumption.
Qed.

Lemma hoare_flash (fk : bool) (P : St -> Prop) (msg cat : string) :
  hoare fk P (flash msg cat) (fun _ _ => True).
Proof. apply hoare_silent. intros st. repeat split. Qed.

Lemma hoare_cookie_set (fk : bool) (P : St -> Prop) (b : bool) :
  hoare fk P (cookie_set_is_admin b) (fun _ _ => True).
Proof. apply hoare_silent. intros st. repeat split. Qed.

Lemma hoare_send_email (fk : bool) (P : St -> Prop) (env : Env)
    (to_email subject body : string) :
  hoare fk P (send_email env to_email subject body) (fun _ _ => True).
Proof.
  apply hoare_silent. intros st.
  destruct (send_email_cases env to_email subject body st); repeat split.
Qed.

Lemma hoare_try_except {A} (fk : bool) (P : St -> Prop) (m h : M A) (e : Exn)
    (Q : A -> St -> Prop) :
  hoare fk P m Q -> hoare fk (fun _ => True) h Q ->
  hoare fk P (try_except m e h) Q.
Proof.
  intros Hm Hh st Hs HP. unfold try_except.
  destruct (Hm st Hs HP) as [Hs' HQ].
  destruct (m st) as [[a|e'] st']; simpl in *.
  - split; [exact Hs'|exact HQ].
  - destruct e, e'; simpl;
      try (split; [exact Hs'|intros b H; discriminate H]);
      apply Hh; auto.
Qed.

(** ** The constraints under the store operations *)

Lemma fold_max_ge (ids : list Z) (x : Z) :
  In x ids -> x <= fold_right Z.max 0 ids.
Proof.
  induction ids as [|y ids IH]; simpl; [intros []|].
  intros [->|H]; [lia|]. specialize (IH H). lia.
Qed.

Lemma next_id_fresh (ids : list Z) : ~ In (next_id ids) ids.
Proof.
  intros H. apply fold_max_ge in H. unfold next_id in H. lia.
Qed.

Lemma NoDup_snoc {A} (l : list A) (x : A) :
  NoDup l -> ~ In x l -> NoDup (l ++ [x]).
Proof.
  intros Hl Hx. apply NoDup_app; auto.
  - constructor; [intros []|constructor].
  - intros a Ha [<-|[]]. auto.
Qed.

Lemma NoDup_map_filter {A B} (g : A -> B) (p : A -> bool) (l : list A) :
  NoDup (map g l) -> NoDup (map g (filter p l)).
Proof.
  induction l as [|a l IH]; simpl; intros H; [constructor|].
  inversion H as [|? ? Hn Hl]; subst.
  destruct (p a); simpl; auto.
  constructor; auto. intros Hin. apply Hn.
  apply in_map_iff in Hin. destruct Hin as (b & E & Hb).
  apply filter_In in Hb. rewrite <- E. apply in_map. tauto.
Qed.

Lemma NoDup_map_eq {A B} (g : A -> B) (l : list A) (x y : A) :
  NoDup (map g l) -> In x l -> In y l -> g x = g y -> x = y.
Proof.
  induction l as [|a l IH]; simpl; intros H Hx Hy E; [contradiction|].
  inversion H as [|? ? Hn Hl]; subst.
  destruct Hx as [->|Hx], Hy as [->|Hy]; auto.
  - exfalso. apply Hn. rewrite E. apply in_map. exact Hy.
  - exfalso. apply Hn. rewrite <- E. apply in_map. exact Hx.
Qed.

Lemma name_taken_false (n : string) (l : list Student.t) (y : Student.t) :
  name_taken n l = false -> In y l -> Student.name y <> n.
Proof.
  unfold name_taken. intros H Hy E.
  assert (existsb (fun s => String.eqb (Student.name s) n) l = true).
  { apply existsb_exists. exists y. split; auto. apply String.eqb_eq. exact E. }
  congruence.
Qed.

Lemma opt_eqb_eq (a b : option string) : opt_eqb a b = true <-> a = b.
Proof.
  unfold opt_eqb. destruct a as [x|], b as [y|]; try (split; congruence).
  rewrite String.eqb_eq. split; congruence.
Qed.

Lemma email_taken_false (e : string) (l : list Student.t) (y : Student.t) :
  email_taken (Some e) l = false -> In y l -> Student.email y <> Some e.
Proof.
  unfold email_taken. intros H Hy E.
  assert (existsb (fun s => opt_eqb (Student.email s) (Some e)) l = true).
  { apply existsb_exists. exists y. split; auto. apply opt_eqb_eq. exact E. }
  congruence.
Qed.

Lemma in_others (k : Z) (l : list Student.t) (y : Student.t) :
  In y (others k l) <-> In y l /\ Student.id y <> k.
Proof.
  unfold others. rewrite filter_In, negb_true_iff, Z.eqb_neq. reflexivity.
Qed.

Lemma in_update_student (k : Z) (f : Student.t -> Student.t)
    (l : list Student.t) (y' : Student.t) :
  In y' (update_student k f l) <->
  exists y, In y l /\ y' = if Student.id y =? k then f y else y.
Proof.
  unfold update_student. rewrite in_map_iff. split.
  - intros (y & E & Hy). eauto.
  - intros (y & Hy & E). eauto.
Qed.

Lemma unique_on_add {B} (g : Student.t -> option B) (l : list Student.t)
    (new : Student.t) :
  unique_on g l ->
  (forall y b, In y l -> g new = Some b -> g y <> Some b) ->
  unique_on g (l ++ [new]).
Proof.
  intros Hu Hnew x y b Hx Hy Ex Ey.
  apply in_app_iff in Hx, Hy. simpl in Hx, Hy.
  destruct Hx as [Hx|[<-|[]]], Hy as [Hy|[<-|[]]].
  - apply (Hu x y b); assumption.
  - exfalso. apply (Hnew x b); assumption.
  - exfalso. apply (Hnew y b); assumption.
  - reflexivity.
Qed.

Lemma unique_on_update {B} (g : Student.t -> option B) (f : Student.t -> Student.t)
    (l : list Student.t) (s : Student.t) :
  NoDup (map Student.id l) -> unique_on g l -> In s l ->
  (forall x, Student.id (f x) = Student.id x) ->
  (g (f s) = g s
   \/ forall y b, In y l -> Student.id y <> Student.id s ->
                  g (f s) = Some b -> g y <> Some b) ->
  unique_on g (update_student (Student.id s) f l).
Proof.
  intros Hnd Hu Hs Hid Hflag x' y' b Hx Hy Ex Ey.
  apply in_update_student in Hx, Hy.
  destruct Hx as (x & Hx & ->), Hy as (y & Hy & ->).
  assert (Hcross : forall u v, In u l -> In v l ->
                     Student.id u = Student.id s ->
                     Student.id v <> Student.id s ->
                     g (f u) = Some b -> g v = Some b -> False).
  { intros u v Hu' Hv' Eu Nv Egu Egv.
    assert (u = s) by (apply (NoDup_map_eq Student.id l); auto). subst u.
    destruct Hflag as [E|Hfree].
    - apply Nv. symmetry. apply (Hu s v b); congruence.
    - apply (Hfree v b); auto. }
  destruct (Student.id x =? Student.id s) eqn:Hxk,
           (Student.id y =? Student.id s) eqn:Hyk;
    rewrite ?Hid; rewrite ?Z.eqb_eq, ?Z.eqb_neq in *.
  - congruence.
  - exfalso. apply (Hcross x y); auto.
  - exfalso. apply (Hcross y x); auto.
  - apply (Hu x y b); assumption.
Qed.

Lemma unique_on_ident {B} (g : Student.t -> option B) (l l' : list Student.t) :
  (forall x y, ident x = ident y -> g x = g y) ->
  map ident l' = map ident l -> unique_on g l -> unique_on g l'.
Proof.
  intros Hg Hmap Hu x y b Hx Hy Ex Ey.
  destruct (in_map_ident l' l x (eq_sym Hmap) Hx) as (x0 & Hx0 & Ix).
  destruct (in_map_ident l' l y (eq_sym Hmap) Hy) as (y0 & Hy0 & Iy).
  assert (Student.id x0 = Student.id y0).
  { apply (Hu x0 y0 b); auto.
    - rewrite (Hg _ _ Ix). exact Ex.
    - rewrite (Hg _ _ Iy). exact Ey. }
  unfold ident in Ix, Iy. congruence.
Qed.

Lemma students_ok_ident (l l' : list Student.t) :
  map ident l' = map ident l -> students_ok l -> students_ok l'.
Proof.
  intros Hmap (Hid & Hn & He). split; [|split].
  - assert (E : forall m, map Student.id m
                          = map (fun p => fst (fst p)) (map ident m))
      by (intros m; rewrite map_map; reflexivity).
    rewrite (E l'), Hmap, <- (E l). exact Hid.
  - apply (unique_on_ident _ l l'); auto.
    intros x y E. unfold ident in E. congruence.
  - apply (unique_on_ident _ l l'); auto.
    intros x y E. unfold ident in E. congruence.
Qed.

Lemma students_ok_filter (p : Student.t -> bool) (l : list Student.t) :
  students_ok l -> students_ok (filter p l).
Proof.
  intros (Hid & Hn & He). split; [|split].
  - apply NoDup_map_filter. exact Hid.
  - intros x y b Hx Hy. apply filter_In in Hx, Hy. apply Hn; tauto.
  - intros x y b Hx Hy. apply filter_In in Hx, Hy. apply He; tauto.
Qed.

Lemma students_ok_add (l : list Student.t) (n : string) (e : option string) :
  students_ok l ->
  name_taken n l = false -> email_taken e l = false ->
  students_ok (l ++ [Student.mk (next_id (map Student.id l)) n e true None]).
Proof.
  intros (Hid & Hn & He) Hname Hemail. split; [|split].
  - rewrite map_app. simpl. apply NoDup_snoc; auto. apply next_id_fresh.
  - apply unique_on_add; auto. simpl. intros y b Hy [= <-] E.
    apply (name_taken_false n l y Hname Hy). congruence.
  - apply unique_on_add; auto. simpl. intros y b Hy -> E.
    apply (email_taken_false b l y Hemail Hy). exact E.
Qed.

(** The check [modify_student] stages, read as a statement. *)
Lemma students_ok_update (l : list Student.t) (s : Student.t)
    (f : Student.t -> Student.t) :
  students_ok l -> In s l ->
  (forall x, Student.id (f x) = Student.id x) ->
  negb (String.eqb (Student.name (f s)) (Student.name s))
    && name_taken (Student.name (f s)) (others (Student.id s) l)
  || negb (opt_eqb (Student.email (f s)) (Student.email s))
    && email_taken (Student.email (f s)) (others (Student.id s) l) = false ->
  students_ok (update_student (Student.id s) f l).
Proof.
  intros (Hid & Hn & He) Hs Hf Hflag.
  apply orb_false_iff in Hflag. destruct Hflag as [Fn Fe].
  split; [|split].
  - rewrite update_student_map by exact Hf. exact Hid.
  - apply unique_on_update; auto.
    apply andb_false_iff in Fn. destruct Fn as [Fn|Fn].
    + left. apply negb_false_iff, String.eqb_eq in Fn. congruence.
    + right. intros y b Hy Ny [= <-] E.
      apply (name_taken_false _ _ y Fn); [|congruence].
      apply in_others. auto.
  - apply unique_on_update; auto.
    apply andb_false_iff in Fe. destruct Fe as [Fe|Fe].
    + left. apply negb_false_iff, opt_eqb_eq in Fe. exact Fe.
    + right. intros y b Hy Ny E E'. rewrite E in Fe.
      apply (email_taken_false _ _ y Fe); [|exact E'].
      apply in_others. auto.
Qed.

Lemma has_student_ids (k : Z) (l l' : list Student.t) (ss : list Session.t)
    (aa : list Attendance.t) :
  map Student.id l' = map Student.id l ->
  has_student k (mkDB l' ss aa) = has_student k (mkDB l ss aa).
Proof.
  intros H. unfold has_student. simpl.
  assert (E : forall m, existsb (fun s => Student.id s =? k) m
                        = existsb (fun i => i =? k) (map Student.id m)).
  { induction m as [|x m IH]; simpl; congruence. }
  rewrite (E l), (E l'), H. reflexivity.
Qed.

Lemma ident_ids (l l' : list Student.t) :
  map ident l' = map ident l -> map Student.id l' = map Student.id l.
Proof.
  intros H.
  assert (E : forall m, map Student.id m
                        = map (fun p => fst (fst p)) (map ident m))
    by (intros m; rewrite map_map; reflexivity).
  rewrite (E l), (E l'), H. reflexivity.
Qed.

Lemma references_ok_students (d : DB) (l' : list Student.t) :
  (forall k, has_student k d = true -> has_student k (with_students l' d) = true) ->
  references_ok d -> references_ok (with_students l' d).
Proof.
  intros H Hr a Ha. destruct (Hr a Ha) as [H1 H2]. split; auto.
Qed.

Lemma inv_students_ident (fk : bool) (d : DB) (l' : list Student.t) :
  map ident l' = map ident (students d) ->
  inv fk d -> inv fk (with_students l' d).
Proof.
  intros Hmap [(Hst & Hse & Hat) Href]. split.
  - split; [|split]; auto. apply (students_ok_ident (students d)); auto.
  - intros Hfk. apply references_ok_students; auto.
    intros k Hk. unfold with_students.
    rewrite (has_student_ids k (students d) l') by (apply ident_ids; exact Hmap).
    destruct d; exact Hk.
Qed.

Lemma inv_update_student (fk : bool) (d : DB) (s : Student.t)
    (f : Student.t -> Student.t) :
  inv fk d -> In s (students d) ->
  (forall x, Student.id (f x) = Student.id x) ->
  negb (String.eqb (Student.name (f s)) (Student.name s))
    && name_taken (Student.name (f s)) (others (Student.id s) (students d))
  || negb (opt_eqb (Student.email (f s)) (Student.email s))
    && email_taken (Student.email (f s))
         (others (Student.id s) (students d)) = false ->
  inv fk (mkDB (update_student (Student.id s) f (students d)) (sessions d)
               (attendances d)).
Proof.
  intros [(Hst & Hse & Hat) Href] Hs Hf Hflag. split.
  - split; [|split]; auto. apply students_ok_update; auto.
  - intros Hfk.
    apply (references_ok_students d
             (update_student (Student.id s) f (students d))); auto.
    intros k Hk. unfold with_students.
    rewrite (has_student_ids k (students d))
      by (apply update_student_map; exact Hf).
    destruct d; exact Hk.
Qed.

Lemma inv_add_student (fk : bool) (d : DB) (n : string) (e : option string) :
  inv fk d ->
  name_taken n (students d) || email_taken e (students d) = false ->
  inv fk (mkDB (students d
                ++ [Student.mk (next_id (map Student.id (students d))) n e
                               true None])
               (sessions d) (attendances d)).
Proof.
  intros [(Hst & Hse & Hat) Href] Hflag.
  apply orb_false_iff in Hflag. destruct Hflag as [Hn He]. split.
  - split; [|split]; auto. apply students_ok_add; auto.
  - intros Hfk a Ha. destruct (Href Hfk a Ha) as [H1 H2]. split; [exact H1|].
    unfold has_student in *. simpl. rewrite existsb_app, H2. reflexivity.
Qed.

Lemma inv_add_session (fk : bool) (d : DB) (when : Z) :
  inv fk d ->
  existsb (fun x => Session.class_date x =? when) (sessions d) = false ->
  inv fk (mkDB (students d)
               (sessions d
                ++ [Session.mk (next_id (map Session.id (sessions d))) when])
               (attendances d)).
Proof.
  intros [(Hst & (Hsi & Hsd) & Hat) Href] Hflag. split.
  - split; [|split]; auto. unfold sessions_ok. simpl.
    split; rewrite map_app; simpl; apply NoDup_snoc; auto.
    + apply next_id_fresh.
    + intros Hin. apply in_map_iff in Hin. destruct Hin as (x & E & Hx).
      assert (existsb (fun x => Session.class_date x =? when) (sessions d)
              = true).
      { apply existsb_exists. exists x. split; auto. apply Z.eqb_eq. exact E. }
      congruence.
  - intros Hfk a Ha. destruct (Href Hfk a Ha) as [H1 H2]. split; [|exact H2].
    unfold has_session in *. simpl. rewrite existsb_app, H1. reflexivity.
Qed.

Lemma inv_add_attendance (env : Env) (d : DB) (sid k : Z) :
  inv (enforce_foreign_keys env) d ->
  existsb (attendance_for sid k) (attendances d)
  || enforce_foreign_keys env && negb (has_session k d && has_student sid d)
  = false ->
  inv (enforce_foreign_keys env)
      (mkDB (students d) (sessions d)
            (attendances d
             ++ [Attendance.mk (next_id (map Attendance.id (attendances d)))
                               sid k true (utcnow env)])).
Proof.
  intros [(Hst & Hse & (Hai & Hak)) Href] Hflag.
  apply orb_false_iff in Hflag. destruct Hflag as [Hex Hfk]. split.
  - split; [|split]; auto. unfold attendances_ok. simpl. split.
    + rewrite map_app. simpl. apply NoDup_snoc; auto. apply next_id_fresh.
    + apply unique_after_insert; assumption.
  - intros Efk. rewrite Efk in Hfk. simpl in Hfk.
    apply negb_false_iff, andb_true_iff in Hfk.
    intros a Ha. simpl in Ha. apply in_app_iff in Ha.
    destruct Ha as [Ha|[<-|[]]].
    + destruct (Href Efk a Ha). split; assumption.
    + simpl. exact Hfk.
Qed.

Lemma inv_filter_attendances (fk : bool) (d : DB) (p : Attendance.t -> bool) :
  inv fk d ->
  inv fk (mkDB (students d) (sessions d) (filter p (attendances d))).
Proof.
  intros [(Hst & Hse & (Hai & Hak)) Href]. split.
  - split; [|split]; auto. split; apply NoDup_map_filter; assumption.
  - intros Hfk a Ha. simpl in Ha. apply filter_In in Ha.
    destruct (Href Hfk a (proj1 Ha)). split; assumption.
Qed.

Lemma inv_remove_student (fk : bool) (d : DB) (sid : Z) :
  inv fk d ->
  fk && orphaned (fun k => k =? sid) d = false ->
  inv fk (mkDB (others sid (students d)) (sessions d) (attendances d)).
Proof.
  intros [(Hst & Hse & Hat) Href] Hflag. split.
  - split; [|split]; auto. apply students_ok_filter. exact Hst.
  - intros Hfk. rewrite Hfk in Hflag. simpl in Hflag.
    intros a Ha. destruct (Href Hfk a Ha) as [H1 H2]. split; [exact H1|].
    unfold has_student in *. simpl.
    apply existsb_exists in H2. destruct H2 as (x & Hx & E).
    apply existsb_exists. exists x. split; [|exact E].
    apply in_others. split; [exact Hx|].
    apply Z.eqb_eq in E. rewrite E. intros Ek.
    assert (orphaned (fun k => k =? sid) d = true).
    { apply existsb_exists. exists a. split; auto. apply Z.eqb_eq. exact Ek. }
    congruence.
Qed.

Lemma inv_remove_all_students (fk : bool) (d : DB) :
  inv fk d ->
  fk && orphaned (fun _ => true) d = false ->
  inv fk (mkDB [] (sessions d) (attendances d)).
Proof.
  intros [(Hst & Hse & Hat) Href] Hflag. split.
  - split; [|split]; auto.
    split; [constructor|]. split; intros x y b [].
  - intros Hfk. rewrite Hfk in Hflag. simpl in Hflag.
    intros a Ha. exfalso.
    assert (orphaned (fun _ => true) d = true).
    { apply existsb_exists. exists a. split; auto. }
    congruence.
Qed.

(** ** The handlers keep the constraints *)

Lemma hoare_add_student (fk : bool) (P : St -> Prop) (n : string)
    (e : option string) :
  hoare fk P (add_student n e) (fun _ _ => True).
Proof.
  intros st [Hsaved Hcur] _. split; [|trivial].
  split; [exact Hsaved|]. simpl. intros Hv.
  apply orb_false_iff in Hv. destruct Hv as [Hv Hb].
  apply inv_add_student; auto.
Qed.

Lemma hoare_modify_student (fk : bool) (s : Student.t)
    (f : Student.t -> Student.t) :
  (forall x, Student.id (f x) = Student.id x) ->
  hoare fk (fun st => In s (students (cur st))) (modify_student s f)
        (fun _ _ => True).
Proof.
  intros Hf st [Hsaved Hcur] Hin. split; [|trivial].
  split; [exact Hsaved|]. simpl. intros Hv.
  apply orb_false_iff in Hv. destruct Hv as [Hv Hb].
  apply inv_update_student; auto.
Qed.

(** A change of columns other than the key, the name and the email needs
    no check. *)
Lemma hoare_modify_flags (fk : bool) (P : St -> Prop) (s : Student.t)
    (f : Student.t -> Student.t) :
  (forall x, ident (f x) = ident x) ->
  hoare fk P (modify_student s f) (fun _ _ => True).
Proof.
  intros Hf st [Hsaved Hcur] _. split; [|trivial].
  split; [exact Hsaved|]. simpl. intros Hv.
  apply orb_false_iff in Hv. destruct Hv as [Hv _].
  apply (inv_students_ident fk (cur st)); auto.
  apply update_student_map. exact Hf.
Qed.

Lemma hoare_add_session (fk : bool) (P : St -> Prop) (when : Z) :
  hoare fk P (add_session when) (fun s st => In s (sessions (cur st))
                                             /\ Session.class_date s = when).
Proof.
  intros st [Hsaved Hcur] _. split.
  - split; [exact Hsaved|]. simpl. intros Hv.
    apply orb_false_iff in Hv. destruct Hv as [Hv Hb].
    apply inv_add_session; auto.
  - intros s [= <-]. simpl. split; [|reflexivity].
    apply in_or_app. right. left. reflexivity.
Qed.

Lemma hoare_add_attendance (env : Env) (P : St -> Prop) (sid : Z)
    (session_id : option Z) :
  hoare (enforce_foreign_keys env) P (add_attendance env sid session_id)
        (fun _ _ => True).
Proof.
  intros st [Hsaved Hcur] _. split; [|trivial].
  split; [destruct session_id; exact Hsaved|].
  destruct session_id as [k|]; simpl.
  - intros Hv. apply orb_false_iff in Hv. destruct Hv as [Hv Hb].
    apply inv_add_attendance; auto.
  - rewrite orb_true_r. discriminate.
Qed.

Ltac hoare_seq := eapply hoare_bind; [|intros ?].

Lemma hoare_check_and_notify (fk : bool) (P : St -> Prop) (env : Env)
    (s : Student.t) :
  hoare fk P (check_and_notify_student env s) (fun _ _ => True).
Proof.
  unfold check_and_notify_student.
  hoare_seq; [apply hoare_query|].
  destruct (Qltb _ _ && Student.active s).
  - hoare_seq; [apply hoare_modify_flags; reflexivity|].
    hoare_seq; [apply hoare_commit|].
    destruct (truthy_opt _).
    + hoare_seq; [apply hoare_send_email|].
      hoare_seq; [apply hoare_modify_flags; reflexivity|].
      hoare_seq; [apply hoare_commit|].
      apply hoare_ret. trivial.
    + apply hoare_ret. trivial.
  - destruct (negb _ && negb _).
    + hoare_seq; [apply hoare_modify_flags; reflexivity|].
      hoare_seq; [apply hoare_commit|].
      apply hoare_ret. trivial.
    + apply hoare_ret. trivial.
Qed.

Lemma hoare_sweep (fk : bool) (env : Env) (l : list Student.t) :
  hoare fk (fun _ => True) (sweep env l) (fun _ _ => True).
Proof.
  induction l as [|s l IH]; simpl.
  - apply hoare_ret. trivial.
  - hoare_seq; [apply hoare_check_and_notify|]. exact IH.
Qed.

Lemma hoare_daily_recompute (fk : bool) (env : Env) :
  hoare fk (fun _ => True) (daily_recompute env) (fun _ _ => True).
Proof.
  unfold daily_recompute. hoare_seq; [apply hoare_query|].
  eapply hoare_weaken; [apply hoare_sweep| |]; intros; exact I.
Qed.

(** Committing keeps what is known of the session's view. *)
Lemma hoare_commit_keep (fk : bool) (R : DB -> Prop) :
  hoare fk (fun st => R (cur st)) commit
        (fun _ st => R (cur st) /\ saved st = cur st /\ violated st = false).
Proof.
  intros st [Hsaved Hcur] HR. unfold commit.
  destruct (violated st) eqn:Hv; simpl.
  - split; [split; [exact Hsaved|congruence]|]. intros a H. discriminate H.
  - split; [split; auto|]. intros a _. auto.
Qed.

Lemma hoare_get_or_create_today_session (fk : bool) (P : St -> Prop)
    (env : Env) :
  hoare fk P (get_or_create_today_session env)
        (fun s st => In s (sessions (cur st))
                     /\ Session.class_date s = today env).
Proof.
  unfold get_or_create_today_session.
  hoare_seq; [apply hoare_query|].
  destruct (find _ (sessions a)) as [sess|] eqn:F.
  - apply hoare_ret. intros st (-> & _). apply find_some in F.
    split; [tauto|]. apply Z.eqb_eq. tauto.
  - hoare_seq; [apply hoare_add_session|].
    hoare_seq.
    + apply (hoare_commit_keep fk
               (fun d => In a0 (sessions d)
                         /\ Session.class_date a0 = today env)).
    + apply hoare_ret. intros st H. apply H.
Qed.

Lemma hoare_get_session_or_404 (fk : bool) (P : St -> Prop) (k : option Z) :
  hoare fk P (get_session_or_404 k)
        (fun s st => In s (sessions (cur st)) /\ Some (Session.id s) = k).
Proof.
  unfold get_session_or_404. hoare_seq; [apply hoare_query|].
  destruct k as [k|]; [|apply hoare_raise].
  destruct (find _ (sessions a)) as [s|] eqn:F; [|apply hoare_raise].
  apply hoare_ret. intros st (-> & _). apply find_some in F.
  split; [tauto|]. f_equal. apply Z.eqb_eq. tauto.
Qed.

Lemma hoare_get_student_or_404 (fk : bool) (P : St -> Prop) (k : Z) :
  hoare fk P (get_student_or_404 k)
        (fun s st => In s (students (cur st)) /\ Student.id s = k).
Proof.
  unfold get_student_or_404. hoare_seq; [apply hoare_query|].
  destruct (find _ (students a)) as [s|] eqn:F; [|apply hoare_raise].
  apply hoare_ret. intros st (-> & _). apply find_some in F.
  split; [tauto|]. apply Z.eqb_eq. tauto.
Qed.

Ltac hoare_done := apply hoare_ret; intros; exact I.

Ltac hoare_seq_any :=
  apply (hoare_bind _ _ _ (fun _ _ => True)); [|intros ?].

Lemma hoare_checkin (fk : bool) (env : Env) (session_id : option Z) :
  hoare fk (fun _ => True) (checkin env session_id) (fun _ _ => True).
Proof.
  unfold checkin. hoare_seq_any.
  - destruct (falsy_id session_id).
    + hoare_seq; [apply hoare_get_or_create_today_session|].
      apply hoare_ret. intros st _. exact I.
    + apply hoare_ret. intros st _. exact I.
  - hoare_seq; [apply hoare_get_session_or_404|]. hoare_done.
Qed.

Lemma hoare_submit_checkin (env : Env) (form : CheckinForm) :
  hoare (enforce_foreign_keys env) (fun _ => True) (submit_checkin env form)
        (fun _ _ => True).
Proof.
  unfold submit_checkin.
  destruct (negb (truthy _)).
  - hoare_seq; [apply hoare_flash|]. hoare_done.
  - hoare_seq; [apply hoare_query|]. hoare_seq_any.
    + destruct (find _ (students a)) as [s|] eqn:F.
      * destruct (truthy _ && negb _).
        -- hoare_seq.
           ++ eapply hoare_weaken;
                [apply (hoare_modify_student _ s); reflexivity| |].
              ** intros st _ (-> & _). apply find_some in F. tauto.
              ** intros x st H. exact H.
           ++ hoare_seq; [apply hoare_commit|].
              apply hoare_ret. intros st _. exact I.
        -- apply hoare_ret. intros st _. exact I.
      * hoare_seq; [apply hoare_add_student|].
        hoare_seq; [apply hoare_commit|].
        apply hoare_ret. intros st _. exact I.
    + hoare_seq; [apply hoare_query|]. hoare_seq_any.
      * destruct (negb _).
        -- hoare_seq; [apply hoare_add_attendance|].
           eapply hoare_weaken; [apply hoare_commit| |]; intros; exact I.
        -- apply hoare_ret. intros st _. exact I.
      * hoare_seq; [apply hoare_check_and_notify|].
        hoare_seq; [apply hoare_flash|]. hoare_done.
Qed.

Lemma hoare_read_only {A} (fk : bool) (m : M A) :
  (forall st, snd (m st) = st) ->
  hoare fk (fun _ => True) m (fun _ _ => True).
Proof.
  intros H. apply hoare_silent. intros st. rewrite H. auto.
Qed.

Lemma export_csv_read_only (session_id : option Z) (st : St) :
  snd (export_csv session_id st) = st.
Proof.
  unfold export_csv, get_session_or_404, bind, query, ret, raise.
  destruct (negb (falsy_id session_id)); simpl; [|reflexivity].
  destruct session_id as [k|]; simpl; [|reflexivity].
  destruct (find _ (sessions (cur st))); reflexivity.
Qed.

Lemma hoare_create_session (fk : bool) (env : Env) (code : option string)
    (class_date : option Z) :
  hoare fk (fun _ => True) (create_session env code class_date)
        (fun _ _ => True).
Proof.
  unfold create_session.
  destruct (negb _); [hoare_done|].
  destruct class_date as [when|]; [|apply hoare_raise].
  hoare_seq; [apply hoare_query|]. hoare_seq_any.
  - destruct (negb _).
    + hoare_seq; [apply hoare_add_session|].
      eapply hoare_weaken; [apply hoare_commit| |]; intros; exact I.
    + apply hoare_ret. intros st _. exact I.
  - hoare_done.
Qed.

Lemma hoare_clear_students (env : Env) (code : option string) :
  hoare (enforce_foreign_keys env) (fun _ => True) (clear_students env code)
        (fun _ _ => True).
Proof.
  unfold clear_students.
  destruct (negb _); [hoare_done|].
  hoare_seq; [apply hoare_query|]. hoare_seq.
  - apply hoare_stage. intros st (-> & _) Hinv _.
    apply (inv_filter_attendances _ (cur st) (fun _ => false)) in Hinv.
    replace (filter (fun _ => false) (attendances (cur st))) with
      (@nil Attendance.t) in Hinv; [exact Hinv|].
    induction (attendances (cur st)); simpl; auto.
  - hoare_seq; [apply hoare_query|]. hoare_seq.
    + apply hoare_stage. intros st (-> & _) Hinv Hflag.
      apply inv_remove_all_students; assumption.
    + hoare_seq; [apply hoare_commit|].
      hoare_seq; [apply hoare_flash|]. hoare_done.
Qed.

Lemma hoare_admin_login (fk : bool) (env : Env) (method : Method)
    (code : option string) :
  hoare fk (fun _ => True) (admin_login env method code) (fun _ _ => True).
Proof.
  unfold admin_login. destruct method; [hoare_done|].
  destruct (String.eqb _ _).
  - hoare_seq; [apply hoare_cookie_set|].
    hoare_seq; [apply hoare_flash|]. hoare_done.
  - hoare_seq; [apply hoare_flash|]. hoare_done.
Qed.

Lemma hoare_admin_logout (fk : bool) :
  hoare fk (fun _ => True) admin_logout (fun _ _ => True).
Proof.
  unfold admin_logout. hoare_seq; [apply hoare_cookie_set|].
  hoare_seq; [apply hoare_flash|]. hoare_done.
Qed.

Lemma hoare_delete_student (env : Env) (student_id : Z) :
  hoare (enforce_foreign_keys env) (fun _ => True)
        (delete_student env student_id) (fun _ _ => True).
Proof.
  unfold delete_student.
  hoare_seq; [apply (hoare_read_only _ require_admin); reflexivity|].
  destruct (negb a); [hoare_done|].
  hoare_seq; [apply hoare_get_student_or_404|].
  hoare_seq; [apply hoare_query|]. hoare_seq.
  - apply hoare_stage. intros st (-> & _) Hinv _.
    apply inv_filter_attendances. exact Hinv.
  - hoare_seq; [apply hoare_query|]. hoare_seq.
    + apply hoare_stage. intros st (-> & _) Hinv Hflag.
      apply inv_remove_student; assumption.
    + hoare_seq; [apply hoare_commit|].
      hoare_seq; [apply hoare_flash|]. hoare_done.
Qed.

Lemma hoare_edit_student (fk : bool) (student_id : Z) (method : Method)
    (form : EditForm) :
  hoare fk (fun _ => True) (edit_student student_id method form)
        (fun _ _ => True).
Proof.
  unfold edit_student.
  hoare_seq; [apply (hoare_read_only _ require_admin); reflexivity|].
  destruct (negb a); [hoare_done|].
  hoare_seq; [apply hoare_get_student_or_404|].
  destruct method; [hoare_done|].
  destruct (negb _).
  - hoare_seq; [apply hoare_flash|]. hoare_done.
  - hoare_seq.
    + eapply hoare_weaken; [apply (hoare_modify_student _ a0); reflexivity| |].
      * intros st _ H. apply H.
      * intros x st H. exact H.
    + apply hoare_try_except.
      * hoare_seq; [apply hoare_commit|].
        hoare_seq; [apply hoare_flash|]. hoare_done.
      * hoare_seq; [apply hoare_rollback|].
        hoare_seq; [apply hoare_flash|]. hoare_done.
Qed.

Lemma hoare_handle (env : Env) (req : Request) :
  hoare (enforce_foreign_keys env) (fun _ => True) (handle env req)
        (fun _ _ => True).
Proof.
  destruct req; simpl.
  - apply hoare_checkin.
  - apply hoare_submit_checkin.
  - apply hoare_read_only. reflexivity.
  - apply hoare_read_only. reflexivity.
  - apply hoare_read_only. apply export_csv_read_only.
  - apply hoare_create_session.
  - apply hoare_clear_students.
  - apply hoare_admin_login.
  - apply hoare_admin_logout.
  - apply hoare_read_only. reflexivity.
  - apply hoare_delete_student.
  - apply hoare_edit_student.
Qed.

Lemma sound_fresh (fk : bool) (d : DB) (adm : bool) :
  inv fk d -> sound fk (fresh d adm).
Proof. intros H. split; [exact H|intros _; exact H]. Qed.

(** Every step of the store keeps its invariant. *)
Lemma step_inv (fk : bool) (d d' : DB) :
  step fk d d' -> inv fk d -> inv fk d'.
Proof.
  intros Hstep Hinv. destruct Hstep as [env req adm d E|env d E|env d E];
    subst fk.
  - destruct (store_serve (handle env req) d adm) as [-> _].
    apply (hoare_handle env req (fresh d adm)); [|exact I].
    apply sound_fresh. exact Hinv.
  - unfold after.
    apply (hoare_get_or_create_today_session _ (fun _ => True) env
             (fresh d false)); [|exact I].
    apply sound_fresh. exact Hinv.
  - unfold after.
    apply (hoare_daily_recompute _ env (fresh d false)); [|exact I].
    apply sound_fresh. exact Hinv.
Qed.

(** X4.  Every step of the store (a request served, today's session looked
    up or created, the daily sweep) keeps the constraints of the schema:
    primary keys, unique names, unique non-NULL emails, unique class dates
    and one attendance row per (student, session); on a backend that
    enforces foreign keys it also keeps every attendance row attached to an
    existing session and student. *)
Theorem steps_keep_constraints (fk : bool) (d d' : DB) :
  step fk d d' ->
  schema_ok d -> (fk = true -> references_ok d) ->
  schema_ok d' /\ (fk = true -> references_ok d').
Proof.
  intros Hstep Hs Hr. apply (step_inv fk d d' Hstep). split; assumption.
Qed.

Lemma schema_ok_db_sam : schema_ok db_sam.
Proof.
  split; [|split].
  - split; [repeat constructor; intros []|].
    split; intros x y b [<-|[]] [<-|[]] _ _; reflexivity.
  - split; simpl; repeat constructor; simpl; intuition discriminate.
  - split; simpl; repeat constructor; intros [].
Qed.

Lemma references_ok_db_sam : references_ok db_sam.
Proof. intros a [<-|[]]. split; reflexivity. Qed.

Lemma steps_keep_constraints_witness :
  schema_ok
    (store (serve (handle env_foreign_keys
                     (PostSubmitCheckin
                        (mkCheckinForm (Some 2) (Some "Alex") None)))
                  db_sam false)).
Proof.
  apply (steps_keep_constraints true db_sam).
  - apply step_request. reflexivity.
  - exact schema_ok_db_sam.
  - intros _. exact references_ok_db_sam.
Defined.

Lemma reachable_inv (fk : bool) (d : DB) : reachable fk d -> inv fk d.
Proof.
  induction 1 as [|d d' _ IH Hstep].
  - split.
    + split; [|split].
      * split; [constructor|]. split; intros x y b [].
      * split; constructor.
      * split; constructor.
    + intros _ a [].
  - apply (step_inv fk d d'); assumption.
Qed.

Lemma references_sessions (d : DB) :
  references_ok d -> attendance_refs_sessions d.
Proof.
  intros H a Ha. destruct (H a Ha) as [Hs _].
  unfold has_session in Hs. apply existsb_exists in Hs.
  destruct Hs as (s & Hin & E). apply Z.eqb_eq in E. rewrite <- E.
  apply in_map. exact Hin.
Qed.

Lemma ratio_bounds (d : DB) (student_id : Z) :
  attendance_unique d -> attendance_refs_sessions d ->
  (0 <= attendance_ratio d student_id <= 1)%Q.
Proof.
  intros Hu Hr. unfold attendance_ratio.
  destruct (session_count d =? 0) eqn:E.
  - split; discriminate.
  - apply ratio_in_unit.
    + split; [apply Nat2Z.is_nonneg|]. apply present_le_sessions; assumption.
    + apply Z.eqb_neq. exact E.
Qed.

(** The store after: today's session is created, Alex checks in for it,
    Alex checks in for a session 99 that does not exist. *)
Lemma reachable_dangling_row :
  reachable false
    (mkDB [Student.mk 1 "Alex" None true None] [Session.mk 1 739000]
          [Attendance.mk 1 1 1 true 1700000000;
           Attendance.mk 2 1 99 true 1700000000]).
Proof.
  eapply reachable_step;
    [eapply reachable_step; [eapply reachable_step; [apply reachable_empty|]|]|].
  - apply (step_today false env_unconfigured). reflexivity.
  - apply (step_request false env_unconfigured
             (PostSubmitCheckin (mkCheckinForm (Some 1) (Some "Alex") None))
             false).
    reflexivity.
  - apply (step_request false env_unconfigured
             (PostSubmitCheckin (mkCheckinForm (Some 99) (Some "Alex") None))
             false).
    reflexivity.
Qed.

(** X5.  On a backend that enforces foreign keys every store reachable
    from the empty one satisfies the constraints of the schema and gives
    every student a ratio between 0 and 1.  Without that enforcement the
    constraints of the schema still hold, and a ratio can exceed 1. *)
Theorem reachable_stores :
  (forall fk d, reachable fk d -> schema_ok d)
  /\ (forall d student_id,
        reachable true d -> (0 <= attendance_ratio d student_id <= 1)%Q)
  /\ (exists d student_id,
        reachable false d /\ (1 < attendance_ratio d student_id)%Q).
Proof.
  split; [|split].
  - intros fk d H. apply (reachable_inv fk d H).
  - intros d student_id H. destruct (reachable_inv true d H) as [Hs Hr].
    apply ratio_bounds.
    + apply Hs.
    + apply references_sessions. apply Hr. reflexivity.
  - eexists. exists 1. split; [apply reachable_dangling_row|]. reflexivity.
Qed.

Lemma reachable_stores_witness :
  let d := store (serve (handle env_foreign_keys
                           (PostSubmitCheckin
                              (mkCheckinForm (Some 99) (Some "Alex") None)))
                        empty_db false) in
  (0 <= attendance_ratio d 1 <= 1)%Q.
Proof.
  intros d. apply (proj1 (proj2 reachable_stores)).
  eapply reachable_step; [apply reachable_empty|].
  apply step_request. reflexivity.
Defined.

(** ** Today's session *)

Lemma find_none_existsb {A} (p : A -> bool) (l : list A) :
  find p l = None -> existsb p l = false.
Proof.
  induction l as [|x l IH]; simpl; [reflexivity|].
  destruct (p x); [discriminate|]. exact IH.
Qed.

Lemma find_app_last {A} (p : A -> bool) (l : list A) (x : A) :
  find p l = None -> p x = true -> find p (l ++ [x]) = Some x.
Proof.
  intros Hn Hx. induction l as [|y l IH]; simpl in *.
  - rewrite Hx. reflexivity.
  - destruct (p y); [discriminate|]. auto.
Qed.

(** What [get_or_create_today_session] does from a state with nothing
    staged. *)
Lemma today_session_effect (env : Env) (st : St) :
  violated st = false ->
  exists sess st',
    get_or_create_today_session env st = (Ret sess, st')
    /\ Session.class_date sess = today env
    /\ In sess (sessions (cur st'))
    /\ (sessions (cur st') = sessions (cur st)
        \/ sessions (cur st') = (sessions (cur st) ++ [sess])%list
           /\ saved st' = cur st'
           /\ forall s, In s (sessions (cur st)) ->
                        Session.class_date s <> today env)
    /\ students (cur st') = students (cur st)
    /\ attendances (cur st') = attendances (cur st)
    /\ forall env', today env' = today env ->
                    get_or_create_today_session env' st' = (Ret sess, st').
Proof.
  intros Hv. unfold get_or_create_today_session at 1.
  unfold bind at 1, query at 1. cbv beta iota.
  destruct (find (fun s => Session.class_date s =? today env)
                 (sessions (cur st))) as [sess|] eqn:F.
  - exists sess, st. pose proof (find_some _ _ F) as [Hin Hd].
    apply Z.eqb_eq in Hd. repeat split; auto.
    intros env' E. unfold get_or_create_today_session, bind, query.
    rewrite E, F. reflexivity.
  - unfold add_session, bind, query, stage, commit, ret. simpl.
    rewrite Hv, (find_none_existsb _ _ F). simpl.
    eexists. eexists. split; [reflexivity|]. simpl.
    split; [reflexivity|]. split.
    { apply in_or_app. right. left. reflexivity. }
    split.
    { right. split; [reflexivity|]. split; [reflexivity|].
      intros s Hs E. apply (find_none _ _ F) in Hs.
      apply Z.eqb_neq in Hs. contradiction. }
    split; [reflexivity|]. split; [reflexivity|].
    intros env' E. unfold get_or_create_today_session, bind, query. simpl.
    rewrite E, (find_app_last _ _ _ F); [reflexivity|].
    simpl. apply Z.eqb_refl.
Qed.

(** X6.  [get_or_create_today_session], started with nothing staged,
    always returns a session dated today that is in the store, commits,
    adds at most that one session and touches nothing else; called again
    on the same day it returns the same session and changes nothing. *)
Theorem today_session_once (env : Env) (st : St) :
  violated st = false ->
  exists sess st',
    get_or_create_today_session env st = (Ret sess, st')
    /\ Session.class_date sess = today env
    /\ In sess (sessions (cur st'))
    /\ (sessions (cur st') = sessions (cur st)
        \/ sessions (cur st') = (sessions (cur st) ++ [sess])%list
           /\ saved st' = cur st'
           /\ forall s, In s (sessions (cur st)) ->
                        Session.class_date s <> today env)
    /\ students (cur st') = students (cur st)
    /\ attendances (cur st') = attendances (cur st)
    /\ forall env', today env' = today env ->
                    get_or_create_today_session env' st' = (Ret sess, st').
Proof. intros Hv. apply today_session_effect. exact Hv. Qed.

Lemma today_session_once_witness :
  exists sess st',
    get_or_create_today_session env_unconfigured (fresh db_sam false)
    = (Ret sess, st')
    /\ Session.class_date sess = 739000.
Proof.
  destruct (today_session_once env_unconfigured (fresh db_sam false) eq_refl)
    as (sess & st' & H & Hd & _).
  exists sess, st'. split; [exact H|exact Hd].
Defined.

(** ** The check-in page *)

Lemma find_by_id_unique (l : list Session.t) (s : Session.t) :
  NoDup (map Session.id l) -> In s l ->
  find (fun x => Session.id x =? Session.id s) l = Some s.
Proof.
  intros Hnd Hin.
  destruct (find (fun x => Session.id x =? Session.id s) l) as [x|] eqn:F.
  - apply find_some in F. destruct F as [Hx E]. apply Z.eqb_eq in E.
    f_equal. apply (NoDup_map_eq Session.id l); auto.
  - apply (find_none _ _ F) in Hin. rewrite Z.eqb_refl in Hin. discriminate.
Qed.

(** X7.  The check-in page.  Without a session id (or with 0) it never
    answers not-found: it shows today's session, creating it if need be.
    With an id it shows that session and leaves the state as it is, or
    raises not-found, leaving the state as it is, when no session has the
    id. *)
Theorem checkin_page (env : Env) (st : St) :
  (forall session_id,
      falsy_id session_id = true ->
      violated st = false ->
      NoDup (map Session.id (sessions (cur st))) ->
      exists sess,
        fst (checkin env session_id st)
        = Ret (Template "checkin.html"
                 [[Int (Session.id sess); Int (today env)]])
        /\ In sess (sessions (cur (snd (checkin env session_id st))))
        /\ Session.class_date sess = today env)
  /\ (forall k,
      k <> 0 ->
      match find (fun s => Session.id s =? k) (sessions (cur st)) with
      | Some sess =>
          checkin env (Some k) st
          = (Ret (Template "checkin.html"
                    [[Int (Session.id sess); Int (Session.class_date sess)]]),
             st)
      | None => checkin env (Some k) st = (Raise NotFound, st)
      end).
Proof.
  split.
  - intros session_id Hf Hv Hnd.
    destruct (today_session_effect env st Hv)
      as (sess & st' & H & Hd & Hin & Hcase & _).
    exists sess.
    assert (Hnd' : NoDup (map Session.id (sessions (cur st')))).
    { destruct Hcase as [->|(E & _ & _)]; [exact Hnd|].
      unfold get_or_create_today_session, add_session, bind, query, stage,
        commit, ret in H.
      destruct (find _ (sessions (cur st))) as [x|] eqn:F.
      - injection H as <- <-. exact Hnd.
      - simpl in H. destruct (violated st || _); [discriminate H|].
        injection H as <- <-. simpl. rewrite map_app. simpl.
        apply NoDup_snoc; auto. apply next_id_fresh. }
    assert (E : checkin env session_id st
                = (Ret (Template "checkin.html"
                          [[Int (Session.id sess); Int (today env)]]),
                   st')).
    { unfold checkin. rewrite Hf. unfold bind at 1. unfold bind at 1.
      rewrite H. unfold ret at 1. cbv beta iota.
      unfold get_session_or_404, bind, query, ret. simpl.
      rewrite (find_by_id_unique _ _ Hnd' Hin). simpl.
      rewrite Hd. reflexivity. }
    rewrite E. repeat split; auto.
  - intros k Hk. unfold checkin, falsy_id.
    apply Z.eqb_neq in Hk. rewrite Hk.
    unfold get_session_or_404, bind, query, ret, raise. simpl.
    destruct (find _ (sessions (cur st))); reflexivity.
Qed.

Lemma checkin_page_witness :
  exists sess,
    fst (checkin env_unconfigured None (fresh empty_db false))
    = Ret (Template "checkin.html" [[Int (Session.id sess); Int 739000]]).
Proof.
  destruct (proj1 (checkin_page env_unconfigured (fresh empty_db false))
              None eq_refl eq_refl (NoDup_nil Z)) as (sess & H & _).
  exists sess. exact H.
Defined.

(** ** Creating a session *)

(** X8.  [create_session] with the right code and a date, started with
    nothing staged: it answers with the redirect and a session of that
    date is in the store afterwards; where one existed nothing changes,
    otherwise exactly one is added and committed; students and attendance
    rows are left alone; and doing it again changes nothing.  With the
    right code and a date that does not parse it raises and changes
    nothing. *)
Theorem create_session_once (env : Env) (code : option string) (when : Z)
    (st : St) :
  opt_eqb code (Some (admin_code env)) = true ->
  violated st = false ->
  let dated := existsb (fun s => Session.class_date s =? when) in
  exists st',
    create_session env code (Some when) st = (Ret (Redirect "index" None), st')
    /\ dated (sessions (cur st')) = true
    /\ students (cur st') = students (cur st)
    /\ attendances (cur st') = attendances (cur st)
    /\ (if dated (sessions (cur st)) then st' = st
        else sessions (cur st')
             = (sessions (cur st)
                ++ [Session.mk (next_id (map Session.id (sessions (cur st))))
                               when])%list
             /\ saved st' = cur st')
    /\ create_session env code (Some when) st'
       = (Ret (Redirect "index" None), st')
    /\ create_session env code None st = (Raise ValueError, st).
Proof.
  intros Hcode Hv dated. unfold dated. clear dated.
  assert (Hd' : existsb (fun s => Session.class_date s =? when)
                  (sessions (cur st)
                   ++ [Session.mk (next_id (map Session.id (sessions (cur st))))
                                  when]) = true).
  { rewrite existsb_app. simpl. rewrite Z.eqb_refl.
    rewrite orb_true_r. reflexivity. }
  unfold create_session. rewrite Hcode.
  unfold add_session, bind, query, stage, commit, ret, raise. simpl.
  destruct (existsb (fun s => Session.class_date s =? when)
                    (sessions (cur st))) eqn:Hd; simpl.
  - exists st. rewrite Hd. simpl. repeat split; auto.
  - rewrite Hv. simpl. rewrite Hd. simpl.
    eexists. split; [reflexivity|]. simpl.
    rewrite Hd'. simpl. repeat split; auto.
Qed.

Lemma create_session_once_witness :
  exists st',
    create_session env_unconfigured (Some "letmein") (Some 739001)
                   (fresh db_sam false)
    = (Ret (Redirect "index" None), st')
    /\ create_session env_unconfigured (Some "letmein") (Some 739001) st'
       = (Ret (Redirect "index" None), st').
Proof.
  destruct (create_session_once env_unconfigured (Some "letmein") 739001
              (fresh db_sam false) eq_refl eq_refl)
    as (st' & H1 & _ & _ & _ & _ & H2 & _).
  exists st'. split; [exact H1|exact H2].
Defined.

(** ** Deleting a student *)

Lemma orphaned_after_delete (k : Z) (d : DB) :
  orphaned (fun x => x =? k)
    (mkDB (students d) (sessions d)
          (filter (fun a => negb (Attendance.student_id a =? k))
                  (attendances d)))
  = false.
Proof.
  unfold orphaned. simpl.
  induction (attendances d) as [|a l IH]; simpl; [reflexivity|].
  destruct (Attendance.student_id a =? k) eqn:E; simpl; [exact IH|].
  rewrite E. exact IH.
Qed.

Lemma find_others_same (k : Z) (l : list Student.t) :
  find (fun s => Student.id s =? k) (others k l) = None.
Proof.
  unfold others. induction l as [|x l IH]; simpl; [reflexivity|].
  destruct (Student.id x =? k) eqn:E; simpl; [exact IH|].
  rewrite E. exact IH.
Qed.

Lemma find_others_other (k k' : Z) (l : list Student.t) :
  k' <> k ->
  find (fun s => Student.id s =? k') (others k l)
  = find (fun s => Student.id s =? k') l.
Proof.
  intros Hk. unfold others. induction l as [|x l IH]; simpl; [reflexivity|].
  destruct (Student.id x =? k) eqn:E; simpl.
  - apply Z.eqb_eq in E. rewrite E.
    apply Z.eqb_neq in Hk. rewrite Z.eqb_sym, Hk. exact IH.
  - rewrite IH. reflexivity.
Qed.

Lemma present_rows_after_delete (d : DB) (l : list Student.t) (k k' : Z) :
  present_rows
    (mkDB l (sessions d)
          (filter (fun a => negb (Attendance.student_id a =? k))
                  (attendances d)))
    k'
  = if k' =? k then [] else present_rows d k'.
Proof.
  unfold present_rows. simpl.
  induction (attendances d) as [|a r IH]; simpl.
  - destruct (k' =? k); reflexivity.
  - destruct (Attendance.student_id a =? k) eqn:E; simpl.
    + rewrite IH. apply Z.eqb_eq in E. rewrite E.
      destruct (k' =? k) eqn:E'; [reflexivity|].
      rewrite Z.eqb_sym, E'. reflexivity.
    + rewrite IH.
      destruct (k' =? k) eqn:E'; [|reflexivity].
      apply Z.eqb_eq in E'. subst k'. rewrite E. reflexivity.
Qed.

(** X9.  [delete_student] by an admin, started with nothing staged.  For
    an id that is in the store it never fails, also on a backend that
    enforces foreign keys: it commits the store without that student and
    without that student's attendance rows, and leaves the sessions, the
    other students and their attendance rows as they were.  For an id that
    is not in the store it raises not-found and changes nothing. *)
Theorem delete_student_cascades (env : Env) (k : Z) (st : St) :
  is_admin st = true ->
  violated st = false ->
  match get_student (cur st) k with
  | Some s =>
      let out := delete_student env k st in
      fst out = Ret (Redirect "dashboard" None)
      /\ saved (snd out) = cur (snd out)
      /\ sessions (cur (snd out)) = sessions (cur st)
      /\ get_student (cur (snd out)) k = None
      /\ present_rows (cur (snd out)) k = []
      /\ forall k', k' <> k ->
                    get_student (cur (snd out)) k' = get_student (cur st) k'
                    /\ present_rows (cur (snd out)) k'
                       = present_rows (cur st) k'
  | None => delete_student env k st = (Raise NotFound, st)
  end.
Proof.
  intros Hadm Hv. unfold get_student.
  destruct (find (fun s => Student.id s =? k) (students (cur st)))
    as [s|] eqn:F.
  - assert (Hid : Student.id s = k).
    { apply find_some in F. apply Z.eqb_eq. apply F. }
    assert (E : delete_student env k st
                = (Ret (Redirect "dashboard" None),
                   mkSt (mkDB (others k (students (cur st)))
                              (sessions (cur st))
                              (filter (fun a => negb (Attendance.student_id a
                                                      =? k))
                                      (attendances (cur st))))
                        (mkDB (others k (students (cur st)))
                              (sessions (cur st))
                              (filter (fun a => negb (Attendance.student_id a
                                                      =? k))
                                      (attendances (cur st))))
                        false (outbox st)
                        (flashes st
                         ++ [(("Deleted " ++ Student.name s ++ ".")%string,
                              "success")])
                        (is_admin st))).
    { pose proof (orphaned_after_delete k (cur st)) as Ho.
      destruct st as [c sv v ob fl adm]. simpl in *. subst v adm.
      unfold delete_student, require_admin, cookie_get_is_admin,
        get_student_or_404, bind, query, stage, commit, flash, ret.
      simpl. rewrite F. simpl. rewrite Hid, Ho, andb_false_r. simpl.
      reflexivity. }
    rewrite E. simpl.
    split; [reflexivity|]. split; [reflexivity|]. split; [reflexivity|].
    split; [apply find_others_same|]. split.
    + rewrite (present_rows_after_delete (cur st)). rewrite Z.eqb_refl.
      reflexivity.
    + intros k' Hk. split.
      * apply find_others_other. exact Hk.
      * rewrite (present_rows_after_delete (cur st)).
        apply Z.eqb_neq in Hk. rewrite Hk. destruct (cur st); reflexivity.
  - unfold delete_student, require_admin, cookie_get_is_admin,
      get_student_or_404, bind, query, raise.
    simpl. rewrite Hadm. simpl. rewrite F. reflexivity.
Qed.

Lemma delete_student_cascades_witness :
  get_student
    (cur (snd (delete_student env_foreign_keys 1 (fresh db_sam true)))) 1
  = None.
Proof.
  apply (delete_student_cascades env_foreign_keys 1 (fresh db_sam true)
           eq_refl eq_refl).
Defined.

(** ** Editing a student *)



(** ** Admin mode *)




(** ** One evaluation of the status transition *)

Lemma update_student_twice (k : Z) (f g : Student.t -> Student.t)
    (l : list Student.t) :
  (forall x, Student.id (f x) = Student.id x) ->
  update_student k g (update_student k f l)
  = update_student k (fun x => g (f x)) l.
Proof.
  intros Hf. unfold update_student. rewrite map_map. apply map_ext.
  intros x. destruct (Student.id x =? k) eqn:E.
  - rewrite Hf, E. reflexivity.
  - rewrite E. reflexivity.
Qed.

Lemma update_student_id (k : Z) (l : list Student.t) :
  update_student k (fun x => x) l = l.
Proof.
  unfold update_student. rewrite <- (map_id l) at 2. apply map_ext.
  intros x. destruct (Student.id x =? k); reflexivity.
Qed.

Lemma attendance_ratio_frame (d d' : DB) (k : Z) :
  sessions d' = sessions d -> attendances d' = attendances d ->
  attendance_ratio d' k = attendance_ratio d k.
Proof.
  intros Hs Ha.
  unfold attendance_ratio, session_count, present_count, present_rows.
  rewrite Hs, Ha. reflexivity.
Qed.

(** What one call does to the store, whatever its outcome: the rows of the
    student get a new [active] flag that agrees with the ratio, and
    possibly a timestamp. *)
Lemma check_and_notify_effect (env : Env) (s : Student.t) (st : St) :
  violated st = false ->
  let out := check_and_notify_student env s st in
  exists F : Student.t -> Student.t,
    students (cur (snd out))
    = update_student (Student.id s) F (students (cur st))
    /\ (forall x, ident (F x) = ident x)
    /\ Student.active (F s)
       = negb (Qltb (attendance_ratio (cur st) (Student.id s))
                    DANGER_THRESHOLD)
    /\ sessions (cur (snd out)) = sessions (cur st)
    /\ attendances (cur (snd out)) = attendances (cur st)
    /\ violated (snd out) = false
    /\ (forall a, fst out = Ret a -> a = F s).
Proof.
  intros Hv out. subst out.
  destruct (Qltb (attendance_ratio (cur st) (Student.id s)) DANGER_THRESHOLD)
    eqn:Hlt; destruct (Student.active s) eqn:Hact.
  - rewrite check_and_notify_demotes by assumption.
    destruct (truthy_opt (Student.email s)).
    + destruct (send_email_cases env (or_empty (Student.email s))
                  alert_subject
                  (alert_body (Student.name s)
                     (attendance_ratio (cur st) (Student.id s)))
                  (demoted s st)); simpl.
      * exists (fun x => Student.set_last_notified_at (Some (utcnow env))
                           (Student.set_active false x)).
        rewrite update_student_twice by reflexivity.
        repeat split. intros a [= <-]. reflexivity.
      * exists (fun x => Student.set_last_notified_at (Some (utcnow env))
                           (Student.set_active false x)).
        rewrite update_student_twice by reflexivity.
        repeat split. intros a [= <-]. reflexivity.
      * exists (Student.set_active false). repeat split.
        intros a H0. discriminate H0.
    + exists (Student.set_active false). simpl. repeat split.
      intros a [= <-]. reflexivity.
  - rewrite check_and_notify_noop by (rewrite Hlt, Hact; reflexivity).
    exists (fun x => x). simpl. rewrite update_student_id.
    repeat split; auto. intros a [= <-]. reflexivity.
  - rewrite check_and_notify_noop by (rewrite Hlt, Hact; reflexivity).
    exists (fun x => x). simpl. rewrite update_student_id.
    repeat split; auto. intros a [= <-]. reflexivity.
  - rewrite check_and_notify_promotes by assumption.
    exists (Student.set_active true). simpl. repeat split.
    intros a [= <-]. reflexivity.
Qed.

(** X12.  The status transition is idempotent, and a failed notification
    is not retried.  After a call that returns, a second call on the same
    student, under any mail settings, changes nothing and sends nothing.
    After a call that raised (the mail transport failed), the stored row
    of the student is such that evaluating it again changes nothing and
    sends nothing. *)
Theorem check_and_notify_once (env : Env) (s : Student.t) (st : St) :
  violated st = false ->
  (forall s' st',
      check_and_notify_student env s st = (Ret s', st') ->
      forall env', check_and_notify_student env' s' st' = (Ret s', st'))
  /\ (forall e st',
      check_and_notify_student env s st = (Raise e, st') ->
      get_student (cur st) (Student.id s) = Some s ->
      exists s2,
        get_student (cur st') (Student.id s) = Some s2
        /\ forall env', check_and_notify_student env' s2 st' = (Ret s2, st')).
Proof.
  intros Hv.
  destruct (check_and_notify_effect env s st Hv)
    as (F & Hst & HF & Hact & Hse & Hat & Hv' & Hret).
  assert (Hid : Student.id (F s) = Student.id s).
  { specialize (HF s). unfold ident in HF. congruence. }
  assert (Hnoop : forall env',
             check_and_notify_student env' (F s)
               (snd (check_and_notify_student env s st))
             = (Ret (F s), snd (check_and_notify_student env s st))).
  { intros env'. apply check_and_notify_noop.
    rewrite Hid, (attendance_ratio_frame (cur st)) by assumption.
    rewrite Hact, negb_involutive. reflexivity. }
  split.
  - intros s' st' E env'. rewrite E in *. simpl in *.
    rewrite (Hret s' eq_refl). apply Hnoop.
  - intros e st' E Hget. rewrite E in *. simpl in *.
    exists (F s). split; [|exact Hnoop].
    unfold get_student in *. rewrite Hst.
    apply get_student_update; [|exact Hget].
    intros x. specialize (HF x). unfold ident in HF. congruence.
Qed.

Lemma check_and_notify_once_witness :
  exists s2,
    get_student
      (cur (snd (check_and_notify_student env_smtp_down sam
                   (fresh db_sam false)))) 1
    = Some s2
    /\ check_and_notify_student env_delivering s2
         (snd (check_and_notify_student env_smtp_down sam
                 (fresh db_sam false)))
       = (Ret s2,
          snd (check_and_notify_student env_smtp_down sam
                 (fresh db_sam false))).
Proof.
  destruct (proj2 (check_and_notify_once env_smtp_down sam
                     (fresh db_sam false) eq_refl)
              SMTPException
              (snd (check_and_notify_student env_smtp_down sam
                      (fresh db_sam false)))
              eq_refl eq_refl) as (s2 & H1 & H2).
  exists s2. split; [exact H1|apply H2].
Defined.

(** ** The daily sweep *)









(** ** What a check-in can change *)

(** The second half of a check-in adds at most one attendance row, of the
    student and for the session of the form, and touches no session and no
    student's id, name or email. *)
Lemma mark_monotone (env : Env) (session_id : option Z) (s : Student.t)
    (st : St) :
  clean st ->
  let st' := snd (mark_and_recompute env session_id s st) in
  sessions (saved st') = sessions (cur st)
  /\ map ident (students (saved st')) = map ident (students (cur st))
  /\ exists extra,
      attendances (saved st') = (attendances (cur st) ++ extra)%list
      /\ (List.length extra <= 1)%nat
      /\ forall a, In a extra ->
                   Attendance.student_id a = Student.id s
                   /\ Some (Attendance.session_id a) = session_id
                   /\ Attendance.present a = true.
Proof.
  intros Hc. pose proof Hc as [Hs Hv]. cbv zeta.
  destruct session_id as [k|].
  - rewrite mark_eval by exact Hv.
    destruct (existsb (attendance_for (Student.id s) k) (attendances (cur st))).
    + pose proof (recompute_frame env (Some k) s st Hc) as H.
      simpl in H. destruct H as ([Hs' _] & H1 & H2 & H3 & _).
      rewrite Hs'. split; [exact H1|]. split; [exact H3|].
      exists []. rewrite app_nil_r. split; [exact H2|].
      split; [simpl; lia|intros a []].
    + cbv zeta.
      destruct (enforce_foreign_keys env
                && negb (has_session k (cur st)
                         && has_student (Student.id s) (cur st))).
      * simpl. rewrite Hs. split; [reflexivity|]. split; [reflexivity|].
        exists []. rewrite app_nil_r. split; [reflexivity|].
        split; [simpl; lia|intros a []].
      * match goal with
        | |- context [recompute_and_redirect env (Some k) s ?c] =>
            pose proof (recompute_frame env (Some k) s c
                          (committed_clean _ st)) as H
        end.
        simpl in H. destruct H as ([Hs' _] & H1 & H2 & H3 & _).
        rewrite Hs'. split; [exact H1|]. split; [exact H3|].
        exists [new_attendance env (cur st) (Student.id s) k].
        split; [exact H2|]. split; [simpl; lia|].
        intros a [<-|[]]. repeat split.
  - rewrite mark_without_session. simpl. rewrite Hs.
    split; [reflexivity|]. split; [reflexivity|].
    exists []. rewrite app_nil_r. split; [reflexivity|].
    split; [simpl; lia|intros a []].
Qed.

(** What a check-in leaves in the committed store. *)
Lemma submit_checkin_adds (env : Env) (form : CheckinForm) (st : St) :
  clean st ->
  let st' := snd (submit_checkin env form st) in
  sessions (saved st') = sessions (cur st)
  /\ (exists new,
        map key (students (saved st')) = (map key (students (cur st)) ++ new)%list
        /\ (List.length new <= 1)%nat)
  /\ (exists extra,
        attendances (saved st') = (attendances (cur st) ++ extra)%list
        /\ (List.length extra <= 1)%nat).
Proof.
  intros Hc. pose proof Hc as [Hs Hv]. cbv zeta.
  assert (Hsame : forall st1 : St,
             saved st1 = cur st ->
             sessions (saved st1) = sessions (cur st)
             /\ (exists new,
                   map key (students (saved st1))
                   = (map key (students (cur st)) ++ new)%list
                   /\ (List.length new <= 1)%nat)
             /\ (exists extra,
                   attendances (saved st1)
                   = (attendances (cur st) ++ extra)%list
                   /\ (List.length extra <= 1)%nat)).
  { intros st1 ->. split; [reflexivity|].
    split; exists []; rewrite app_nil_r; split; simpl; auto. }
  destruct (truthy (strip (or_empty (form_name form)))) eqn:Hname.
  - rewrite submit_checkin_halves by exact Hname.
    set (name := strip (or_empty (form_name form))).
    set (email := strip (or_empty (form_email form))).
    assert (Hmark : forall s1 st1 new,
               clean st1 ->
               sessions (cur st1) = sessions (cur st) ->
               attendances (cur st1) = attendances (cur st) ->
               map key (students (cur st1))
               = (map key (students (cur st)) ++ new)%list ->
               (List.length new <= 1)%nat ->
               let st' := snd (mark_and_recompute env (form_session_id form)
                                 s1 st1) in
               sessions (saved st') = sessions (cur st)
               /\ (exists new,
                     map key (students (saved st'))
                     = (map key (students (cur st)) ++ new)%list
                     /\ (List.length new <= 1)%nat)
               /\ (exists extra,
                     attendances (saved st')
                     = (attendances (cur st) ++ extra)%list
                     /\ (List.length extra <= 1)%nat)).
    { intros s1 st1 new Hc1 E1 E2 E3 Hlen.
      destruct (mark_monotone env (form_session_id form) s1 st1 Hc1)
        as (M1 & M2 & extra & M3 & M4 & _).
      cbv zeta. split; [congruence|]. split.
      - exists new. rewrite (ident_key _ _ M2). auto.
      - exists extra. rewrite M3, E2. auto. }
    destruct (find (same_name name) (students (cur st))) as [s|] eqn:F.
    + rewrite (resolve_found name email st s Hv F).
      destruct (truthy email && negb (truthy_opt (Student.email s))).
      * cbv zeta.
        destruct (email_taken (Some email)
                    (others (Student.id s) (students (cur st)))).
        -- apply Hsame. exact Hs.
        -- apply (Hmark _ _ []);
             [apply committed_clean|reflexivity|reflexivity| |simpl; lia].
           simpl. rewrite app_nil_r. apply update_student_map. reflexivity.
      * apply (Hmark _ _ []);
          [exact Hc|reflexivity|reflexivity| |simpl; lia].
        rewrite app_nil_r. reflexivity.
    + rewrite (resolve_new name email st Hv F). cbv zeta.
      destruct (email_taken (or_None email) (students (cur st))).
      * apply Hsame. exact Hs.
      * apply (Hmark _ _ [key (new_student (cur st) name email)]);
          [apply committed_clean|reflexivity|reflexivity| |simpl; lia].
        simpl. rewrite map_app. reflexivity.
  - unfold submit_checkin. rewrite Hname. apply Hsame. exact Hs.
Qed.


(** X14.  A check-in, whatever the form and the outcome, started with
    nothing staged: the committed store has the sessions it had, every
    student it had with the same id and name, at most one more student,
    every attendance row it had and at most one more. *)
Theorem submit_checkin_only_adds (env : Env) (form : CheckinForm) (st : St) :
  clean st ->
  let st' := snd (submit_checkin env form st) in
  sessions (saved st') = sessions (cur st)
  /\ (exists new,
        map key (students (saved st')) = (map key (students (cur st)) ++ new)%list
        /\ (List.length new <= 1)%nat)
  /\ (exists extra,
        attendances (saved st') = (attendances (cur st) ++ extra)%list
        /\ (List.length extra <= 1)%nat).
Proof. intros Hc. apply submit_checkin_adds. exact Hc. Qed.

Lemma submit_checkin_only_adds_witness :
  sessions (saved (snd (submit_checkin env_unconfigured
                          (mkCheckinForm (Some 99) (Some "Alex") None)
                          (fresh db_sam false))))
  = sessions db_sam.
Proof.
  apply (submit_checkin_only_adds env_unconfigured
           (mkCheckinForm (Some 99) (Some "Alex") None) (fresh db_sam false)).
  split; reflexivity.
Defined.



(** ** Reports *)









(** Rounding to the nearest integer reaches 50 from 49.5 on. *)
Lemma py_round_ge_50 (q : Q) : 50 <= py_round q <-> (99 # 2 <= q)%Q.
Proof.
  unfold py_round.
  pose proof (Qfloor_le q) as Hlo. pose proof (Qlt_floor q) as Hhi.
  set (f := Qfloor q) in *.
  rewrite inject_Z_plus in Hhi. change (inject_Z 1) with 1%Q in Hhi.
  destruct (Qcompare_spec (2 * (q - inject_Z f)) 1) as [He|Hl|Hg]; split.
  - intros H. destruct (Z.even f) eqn:Ev.
    + assert (inject_Z 50 <= inject_Z f)%Q by (rewrite <- Zle_Qle; exact H).
      change (inject_Z 50) with 50%Q in *. lra.
    + assert (inject_Z 49 <= inject_Z f)%Q by (rewrite <- Zle_Qle; lia).
      change (inject_Z 49) with 49%Q in *. lra.
  - intros H.
    assert (Hf : 49 <= f).
    { destruct (Z_le_gt_dec 49 f) as [|Hlt]; [assumption|exfalso].
      assert (inject_Z f <= inject_Z 48)%Q by (rewrite <- Zle_Qle; lia).
      change (inject_Z 48) with 48%Q in *. lra. }
    destruct (Z.even f) eqn:Ev; [|lia].
    destruct (Z.eq_dec f 49) as [->|]; [discriminate Ev|lia].
  - intros H.
    assert (inject_Z 50 <= inject_Z f)%Q by (rewrite <- Zle_Qle; exact H).
    change (inject_Z 50) with 50%Q in *. lra.
  - intros H.
    destruct (Z_le_gt_dec 50 f) as [|Hlt]; [assumption|exfalso].
    assert (inject_Z f <= inject_Z 49)%Q by (rewrite <- Zle_Qle; lia).
    change (inject_Z 49) with 49%Q in *. lra.
  - intros H.
    assert (inject_Z 49 <= inject_Z f)%Q by (rewrite <- Zle_Qle; lia).
    change (inject_Z 49) with 49%Q in *. lra.
  - intros H.
    destruct (Z_le_gt_dec 49 f) as [|Hlt]; [lia|exfalso].
    assert (inject_Z f <= inject_Z 48)%Q by (rewrite <- Zle_Qle; lia).
    change (inject_Z 48) with 48%Q in *. lra.
Qed.

Lemma status_label_active (b : bool) : status_label b = "Active" <-> b = true.
Proof. destruct b; simpl; split; intros H; try reflexivity; discriminate H. Qed.

(** X17.  Where at least one session exists, the status column of the
    all-students export is Active exactly when the ratio is at least
    49.5 percent (the percentage is rounded before it is compared with 50),
    while the status transition keeps a student active exactly when the
    ratio is at least one half.  So the two agree unless the ratio is in
    the band from 49.5 percent up to but not including 50 percent, where
    the export says Active and the transition says inactive. *)
Theorem export_status_band (d : DB) (s : Student.t) :
  sessions d <> [] ->
  let ratio := attendance_ratio d (Student.id s) in
  (export_status d s = "Active" <-> (99 # 200 <= ratio)%Q)
  /\ (Qltb ratio DANGER_THRESHOLD = false <-> (1 # 2 <= ratio)%Q)
  /\ ((99 # 200 <= ratio)%Q -> (ratio < 1 # 2)%Q ->
      export_status d s = "Active"
      /\ Qltb ratio DANGER_THRESHOLD = true).
Proof.
  intros Hne ratio.
  assert (E : export_status d s = "Active" <-> (99 # 200 <= ratio)%Q).
  { destruct (export_matches_ratio d s Hne) as [_ ->]. fold ratio.
    rewrite status_label_active, Z.leb_le. unfold percent.
    rewrite py_round_ge_50. split; intros H; lra. }
  split; [exact E|]. split; [apply Qltb_ge|].
  intros H1 H2. split; [apply E; exact H1|apply Qltb_lt; exact H2].
Qed.

Lemma export_status_band_witness :
  export_status db_band (Student.mk 1 "Alex" None true None) = "Active"
  /\ Qltb (attendance_ratio db_band 1) DANGER_THRESHOLD = true.
Proof.
  apply (export_status_band db_band (Student.mk 1 "Alex" None true None)).
  - discriminate.
  - vm_compute. discriminate.
  - vm_compute. reflexivity.
Defined.

(** ** Status after a check-in *)




(** ** A check-in and the ratios *)

Lemma present_count_app (d : DB) (extra : list Attendance.t) (k : Z) :
  present_count d k
  <= present_count
       (mkDB (students d) (sessions d) (attendances d ++ extra)) k.
Proof.
  unfold present_count, present_rows, count. simpl.
  rewrite filter_app, length_app. lia.
Qed.

Lemma ratio_monotone (p p' t : Z) :
  0 <= p <= p' -> 0 <= t ->
  ((if t =? 0 then 1 else inject_Z p / inject_Z t)
   <= (if t =? 0 then 1 else inject_Z p' / inject_Z t))%Q.
Proof.
  intros Hp Ht. destruct (t =? 0) eqn:E; [apply Qle_refl|].
  apply Z.eqb_neq in E.
  assert (Hpos : (0 < inject_Z t)%Q).
  { replace 0%Q with (inject_Z 0) by reflexivity. rewrite <- Zlt_Qlt. lia. }
  apply Qle_shift_div_l; [exact Hpos|].
  unfold Qdiv. rewrite <- Qmult_assoc, (Qmult_comm (/ inject_Z t)).
  rewrite Qmult_inv_r, Qmult_1_r.
  - rewrite <- Zle_Qle. lia.
  - intros H. rewrite H in Hpos. apply (Qlt_irrefl 0). exact Hpos.
Qed.

(** X19.  A check-in, whatever the form and the outcome, never lowers the
    ratio of any student. *)
Theorem submit_checkin_never_lowers_ratio (env : Env) (form : CheckinForm)
    (st : St) (student_id : Z) :
  clean st ->
  (attendance_ratio (cur st) student_id
   <= attendance_ratio (saved (snd (submit_checkin env form st))) student_id)%Q.
Proof.
  intros Hc.
  destruct (submit_checkin_adds env form st Hc)
    as (Hse & _ & extra & Hat & _).
  unfold attendance_ratio, session_count, present_count, present_rows, count.
  rewrite Hse, Hat, filter_app, length_app.
  apply ratio_monotone; lia.
Qed.

Lemma submit_checkin_never_lowers_ratio_witness :
  let d' := saved (snd (submit_checkin env_unconfigured
                          (mkCheckinForm (Some 2) (Some "Sam") None)
                          (fresh db_sam false))) in
  (attendance_ratio db_sam 1 <= attendance_ratio d' 1)%Q.
Proof.
  intros d'. apply (submit_checkin_never_lowers_ratio env_unconfigured
           (mkCheckinForm (Some 2) (Some "Sam") None) (fresh db_sam false) 1).
  split; reflexivity.
Defined.

(** ** The notification sender *)

